(** * ShipmentTrackr: the alert derivation and lifecycle engine

    A shallow embedding of [src/services/alertService.js] (the rule
    engine, admission filter, cleanup pass and notification fan-out) and
    of the second [useAlerts] hook of [src/hooks/useAlerts.js] (the
    per-cycle pipeline and the dismiss operation), followed by the
    properties of the specification stated over them.

    Conventions of the embedding:
    - a JavaScript [Date] is its number of milliseconds since the epoch,
      a [Z]; one call reads the clock once ([now] is the same for every
      [new Date()] and [Date.now()] of that call);
    - JavaScript numbers obtained by dividing two integers are rationals
      ([Q]); [Math.ceil] and [Math.floor] are [Qceiling] and [Qfloor];
    - a property that may be absent ([undefined]) is an [option];
      [===] on two such properties is equality of options;
    - [Math.random()] is an oracle [random : nat -> string] giving the
      suffix produced by the n-th draw; the number of draws made so far
      is threaded through the [Draw] monad. *)

From Stdlib Require Import ZArith List String Ascii Bool Lia.
From Stdlib Require Import DecimalString QArith Qround FinFun.
Import ListNotations.

Local Open Scope Z_scope.
Local Open Scope string_scope.

(** ** JavaScript primitives used by the source *)

Module JS.

(** [String.prototype.toLowerCase] on the ASCII range.  The needles
    searched by the source ("weather", "customs", "address") contain no
    letter that a non-ASCII character lower-cases to, so the bytes
    above 127 of a UTF-8 text are left alone. *)
Definition lowerAscii (c : ascii) : ascii :=
  let n := nat_of_ascii c in
  if (Nat.leb 65 n && Nat.leb n 90)%bool then ascii_of_nat (n + 32) else c.

Fixpoint toLowerCase (s : string) : string :=
  match s with
  | EmptyString => EmptyString
  | String c r => String (lowerAscii c) (toLowerCase r)
  end.

(** [String.prototype.includes]: [needle] occurs somewhere in [s]. *)
Fixpoint includes (s needle : string) : bool :=
  if String.prefix needle s then true
  else match s with
       | EmptyString => false
       | String _ r => includes r needle
       end.

(** [`${n}`] for an integral number. *)
Definition showZ (n : Z) : string := NilZero.string_of_int (Z.to_int n).

(** [===] on two possibly-undefined strings. *)
Definition strictEq (a b : option string) : bool :=
  match a, b with
  | Some x, Some y => String.eqb x y
  | None, None => true
  | _, _ => false
  end.

(** [new Set(xs).size]: the number of distinct elements. *)
Fixpoint setSize (xs : list (option string)) : nat :=
  match xs with
  | [] => 0
  | x :: r => if existsb (strictEq x) r then setSize r else S (setSize r)
  end.

End JS.

(** ** Data model *)

Definition msPerHour : positive := 3600000.
Definition msPerDay : positive := 86400000.

Module HistoricalStatus.
Record t := mk {
  status : string;
  timestamp : option Z;
  location : option string
}.
End HistoricalStatus.

Module Shipment.
Record t := mk {
  shipmentId : option string;
  trackingNumber : option string;
  carrier : option string;
  nickname : string;
  status : string;
  estimatedDelivery : option Z;
  lastUpdated : Z;
  historicalStatuses : list HistoricalStatus.t
}.
End Shipment.

(** An entry of the [ALERT_TYPES] table. *)
Module AlertType.
Record t := mk {
  type : string;
  priority : string;
  title : string;
  icon : string
}.
End AlertType.

Module ALERT_TYPES.
Definition DELAY_DETECTED := AlertType.mk "warning" "high" "Shipment Delayed" "⚠️".
Definition DELIVERY_SOON := AlertType.mk "info" "medium" "Delivery Today" "📦".
Definition DELIVERED := AlertType.mk "success" "medium" "Package Delivered" "✅".
Definition EXCEPTION := AlertType.mk "error" "high" "Delivery Exception" "❌".
Definition WEATHER_DELAY := AlertType.mk "warning" "medium" "Weather Delay" "🌧️".
Definition CUSTOMS_DELAY := AlertType.mk "warning" "medium" "Customs Processing" "🛃".
Definition ADDRESS_ISSUE := AlertType.mk "error" "high" "Address Problem" "🏠".
End ALERT_TYPES.

Module Metadata.
Record t := mk {
  carrier : option string;
  status : string;
  pattern : option string
}.
End Metadata.

(** An alert object.  [read], [readAt] and [dismissedAt] are properties
    that the source adds only in [markAlertAsRead] and [dismissAlert];
    [None] is the absent property.  [dismissed] is read by the source
    only through its truthiness.  [timestamp] is [None] for a value that
    [new Date] cannot parse. *)
Module Alert.
Record t := mk {
  id : string;
  type : string;
  priority : string;
  title : string;
  message : string;
  icon : string;
  timestamp : option Z;
  shipmentId : option string;
  trackingNumber : option string;
  dismissed : bool;
  dismissedAt : option Z;
  read : option bool;
  readAt : option Z;
  metadata : Metadata.t
}.
End Alert.

(** What a call reads from outside its arguments: the clock and the
    premium feature gate ([hasPremiumFeatures()]). *)
Record Env := mkEnv {
  now : Z;
  hasPremiumFeatures : bool
}.

(** ** The monad of random draws *)

Definition Draw (A : Type) : Type := nat -> A * nat.

Definition ret {A} (x : A) : Draw A := fun n => (x, n).

Definition bind {A B} (c : Draw A) (k : A -> Draw B) : Draw B :=
  fun n => let (x, n') := c n in k x n'.

Notation "x <- c ;; k" := (bind c (fun x => k))
  (at level 61, c at next level, right associativity).

Section RuleEngine.

(** The suffix [Math.random().toString(36).substr(2, 5)] of the n-th draw. *)
Variable random : nat -> string.

Definition randomSuffix : Draw string := fun n => (random n, S n).

Variable env : Env.

(** [createAlert]; the optional fourth argument only ever carries a
    [pattern] tag. *)
Definition createAlert (alertType : AlertType.t) (message : string)
    (shipment : Shipment.t) (pattern : option string) : Draw Alert.t :=
  suffix <- randomSuffix ;;
  ret {| Alert.id := "alert_" ++ JS.showZ (now env) ++ "_" ++ suffix;
         Alert.type := AlertType.type alertType;
         Alert.priority := AlertType.priority alertType;
         Alert.title := AlertType.title alertType;
         Alert.message := message;
         Alert.icon := AlertType.icon alertType;
         Alert.timestamp := Some (now env);
         Alert.shipmentId := Shipment.shipmentId shipment;
         Alert.trackingNumber := Shipment.trackingNumber shipment;
         Alert.dismissed := false;
         Alert.dismissedAt := None;
         Alert.read := None;
         Alert.readAt := None;
         Alert.metadata :=
           {| Metadata.carrier := Shipment.carrier shipment;
              Metadata.status := Shipment.status shipment;
              Metadata.pattern := pattern |} |}.

(** [latestStatus?.location?.toLowerCase().includes(word)] *)
Definition locationMentions (latestStatus : option HistoricalStatus.t)
    (word : string) : bool :=
  match latestStatus with
  | Some h =>
      match HistoricalStatus.location h with
      | Some l => JS.includes (JS.toLowerCase l) word
      | None => false
      end
  | None => false
  end.

(** [shipment.historicalStatuses?.[shipment.historicalStatuses.length - 1]]:
    the last entry, [undefined] on an empty history. *)
Definition latestStatusOf (shipment : Shipment.t) : option HistoricalStatus.t :=
  nth_error (Shipment.historicalStatuses shipment)
            (List.length (Shipment.historicalStatuses shipment) - 1).

Definition getDelayReason (shipment : Shipment.t) : string :=
  let latestStatus := latestStatusOf shipment in
  if locationMentions latestStatus "weather" then
    "Weather conditions causing delays"
  else if locationMentions latestStatus "customs" then
    "Customs processing delay"
  else if locationMentions latestStatus "address" then
    "Address verification required"
  else "Unexpected delay in transit".

Definition getDelayAlertType (reason : string) : AlertType.t :=
  if JS.includes (JS.toLowerCase reason) "weather" then ALERT_TYPES.WEATHER_DELAY
  else if JS.includes (JS.toLowerCase reason) "customs" then ALERT_TYPES.CUSTOMS_DELAY
  else if JS.includes (JS.toLowerCase reason) "address" then ALERT_TYPES.ADDRESS_ISSUE
  else ALERT_TYPES.DELAY_DETECTED.

Definition getDaysOverdue (estimatedDelivery : Z) : Z :=
  let diffTime := now env - estimatedDelivery in
  Qceiling (diffTime # msPerDay).

Definition getHoursSinceUpdate (shipment : Shipment.t) : Z :=
  Qfloor ((now env - Shipment.lastUpdated shipment) # msPerHour).

Definition isShipmentStuck (shipment : Shipment.t) : bool :=
  if String.eqb (Shipment.status shipment) "delivered" then false
  else
    let hoursSinceUpdate := getHoursSinceUpdate shipment in
    ((48 <? hoursSinceUpdate)%Z
     && (String.eqb (Shipment.status shipment) "in_transit"
         || String.eqb (Shipment.status shipment) "pending"))%bool.

(** [hasUnusualRouting]: some location is visited again more than once. *)
Definition hasUnusualRouting (shipment : Shipment.t) : bool :=
  if (List.length (Shipment.historicalStatuses shipment) <? 3)%nat then false
  else
    let locations := map HistoricalStatus.location (Shipment.historicalStatuses shipment) in
    (JS.setSize locations + 1 <? List.length locations)%nat.

(** [detectCarrierIssues]; [None] is the source's [null].  The date of
    the first history entry is [NaN] when the entry or its timestamp is
    missing, and every comparison with [NaN] is false. *)
Definition detectCarrierIssues (shipment : Shipment.t) : option string :=
  if (JS.strictEq (Shipment.carrier shipment) (Some "usps")
      && (72 <? getHoursSinceUpdate shipment)%Z)%bool then
    Some "USPS packages often experience delays during peak seasons"
  else if (JS.strictEq (Shipment.carrier shipment) (Some "fedex")
           && String.eqb (Shipment.status shipment) "in_transit")%bool then
    match nth_error (Shipment.historicalStatuses shipment) 0 with
    | Some {| HistoricalStatus.timestamp := Some first |} =>
        let transitDays := Qfloor ((now env - first) # msPerDay) in
        if (5 <? transitDays)%Z then
          Some "FedEx shipment has been in transit longer than typical"
        else None
    | _ => None
    end
  else None.

(** [if (c) alerts.push(a)]: the pushed alerts of one guarded rule. *)
Definition when (c : bool) (a : Draw Alert.t) : Draw (list Alert.t) :=
  if c then x <- a ;; ret [x] else ret [].

Definition detectAdvancedPatterns (shipment : Shipment.t) : Draw (list Alert.t) :=
  routing <- when (hasUnusualRouting shipment)
    (createAlert ALERT_TYPES.EXCEPTION
       (Shipment.nickname shipment
        ++ " is taking an unusual route - may indicate processing issues")
       shipment (Some "unusual_routing")) ;;
  let carrierIssues := detectCarrierIssues shipment in
  issue <- match carrierIssues with
           | Some text =>
               x <- createAlert ALERT_TYPES.DELAY_DETECTED
                      (Shipment.nickname shipment ++ ": " ++ text)
                      shipment (Some "carrier_issue") ;;
               ret [x]
           | None => ret []
           end ;;
  ret (routing ++ issue)%list.

(** The guards of the five unconditional rules of
    [analyzeShipmentForAlerts], in source order. *)
Definition overdueFires (shipment : Shipment.t) : bool :=
  match Shipment.estimatedDelivery shipment with
  | Some estimated =>
      ((estimated <? now env)%Z
       && (negb (String.eqb (Shipment.status shipment) "delivered")
           && negb (String.eqb (Shipment.status shipment) "delayed")))%bool
  | None => false
  end.

Definition delayedFires (shipment : Shipment.t) : bool :=
  String.eqb (Shipment.status shipment) "delayed".

Definition deliverySoonFires (shipment : Shipment.t) : bool :=
  String.eqb (Shipment.status shipment) "out_for_delivery".

Definition deliveredFires (shipment : Shipment.t) (previousStatus : option string) : bool :=
  (String.eqb (Shipment.status shipment) "delivered"
   && negb (JS.strictEq previousStatus (Some "delivered")))%bool.

Definition overdueMessage (shipment : Shipment.t) : string :=
  Shipment.nickname shipment ++ " is "
  ++ match Shipment.estimatedDelivery shipment with
     | Some estimated => JS.showZ (getDaysOverdue estimated)
     | None => "NaN"
     end
  ++ " day(s) overdue".

(** [analyzeShipmentForAlerts(shipment, previousStatus)].  A missing
    second argument and an [undefined] one are both [None]. *)
Definition analyzeShipmentForAlerts (shipment : Shipment.t)
    (previousStatus : option string) : Draw (list Alert.t) :=
  overdue <- when (overdueFires shipment)
    (createAlert ALERT_TYPES.DELAY_DETECTED (overdueMessage shipment) shipment None) ;;
  delayed <- when (delayedFires shipment)
    (let delayReason := getDelayReason shipment in
     let alertType := getDelayAlertType delayReason in
     createAlert alertType (Shipment.nickname shipment ++ ": " ++ delayReason)
       shipment None) ;;
  soon <- when (deliverySoonFires shipment)
    (createAlert ALERT_TYPES.DELIVERY_SOON
       (Shipment.nickname shipment ++ " is out for delivery and should arrive today")
       shipment None) ;;
  delivered <- when (deliveredFires shipment previousStatus)
    (createAlert ALERT_TYPES.DELIVERED
       (Shipment.nickname shipment ++ " has been successfully delivered")
       shipment None) ;;
  stuck <- when (isShipmentStuck shipment)
    (createAlert ALERT_TYPES.EXCEPTION
       (Shipment.nickname shipment ++ " hasn't been updated in "
        ++ JS.showZ (getHoursSinceUpdate shipment) ++ " hours")
       shipment None) ;;
  advancedAlerts <- (if hasPremiumFeatures env then detectAdvancedPatterns shipment
                     else ret []) ;;
  ret (overdue ++ delayed ++ soon ++ delivered ++ stuck ++ advancedAlerts)%list.

End RuleEngine.

(** ** The lifecycle manager of [alertService.js] *)

(** The dedup key test of [deduplicateAlerts]:
    [existing.shipmentId === newAlert.shipmentId && existing.type ===
    newAlert.type && existing.title === newAlert.title]. *)
Definition sameKey (existing newAlert : Alert.t) : bool :=
  (JS.strictEq (Alert.shipmentId existing) (Alert.shipmentId newAlert)
   && String.eqb (Alert.type existing) (Alert.type newAlert)
   && String.eqb (Alert.title existing) (Alert.title newAlert))%bool.

Definition deduplicateAlerts (newAlerts existingAlerts : list Alert.t) : list Alert.t :=
  filter (fun newAlert =>
            negb (existsb (fun existing =>
                             (sameKey existing newAlert
                              && negb (Alert.dismissed existing))%bool)
                          existingAlerts))
         newAlerts.

(** The body of the filter of [cleanupOutdatedAlerts]: [true] keeps the
    alert.  An unparsable timestamp gives the age [NaN], which is not
    greater than 7. *)
Definition keepAlert (env : Env) (shipments : list Shipment.t) (alert : Alert.t) : bool :=
  match find (fun s => JS.strictEq (Shipment.shipmentId s) (Alert.shipmentId alert))
             shipments with
  | None => false
  | Some shipment =>
      if (String.eqb (Alert.title alert) "Delivery Today"
          && negb (String.eqb (Shipment.status shipment) "out_for_delivery"))%bool
      then false
      else if (String.eqb (Alert.type alert) "warning"
               && String.eqb (Shipment.status shipment) "delivered")%bool
      then false
      else
        match Alert.timestamp alert with
        | Some created =>
            let alertAge := (now env - created) # msPerDay in
            if negb (Qle_bool alertAge 7) then false else true
        | None => true
        end
  end.

Definition cleanupOutdatedAlerts (env : Env) (alerts : list Alert.t)
    (shipments : list Shipment.t) : list Alert.t :=
  filter (keepAlert env shipments) alerts.

(** The object returned by [getUserPreferences]. *)
Record Preferences := mkPreferences {
  emailNotifications : bool;
  delayAlerts : bool;
  deliveryAlerts : bool;
  weeklyDigest : bool
}.

(** The third argument of [sendNotificationEmail]. *)
Inductive ShipmentData : Type :=
| AlertData (trackingNumber : option string) (status message title : string)
| DigestData (alerts : list Alert.t) (count : nat).

(** One call [sendNotificationEmail(userEmail, notificationType, shipmentData)]. *)
Record Dispatch := mkDispatch {
  userEmail : string;
  notificationType : string;
  shipmentData : ShipmentData
}.

(** [sendNotificationEmail] of the API layer: the mock waits, logs and
    resolves; [true] is a resolved promise, [false] a rejected one. *)
Definition sendNotificationEmail (d : Dispatch) : bool := true.

Section Notifications.

(** The Notification Port in use. *)
Variable send : Dispatch -> bool.

(** [for (const alert of ...) await send(...)] inside the [try]: the
    calls made, and whether all of them resolved.  The first rejection
    leaves the loop for the [catch]. *)
Fixpoint sendEach (ds : list Dispatch) : list Dispatch * bool :=
  match ds with
  | [] => ([], true)
  | d :: rest =>
      if send d then
        let (made, ok) := sendEach rest in (d :: made, ok)
      else ([d], false)
  end.

Definition alertDispatch (email : string) (alert : Alert.t) : Dispatch :=
  mkDispatch email "alert"
    (AlertData (Alert.trackingNumber alert)
               (Metadata.status (Alert.metadata alert))
               (Alert.message alert)
               (Alert.title alert)).

Definition digestDispatch (email : string) (otherAlerts : list Alert.t) : Dispatch :=
  mkDispatch email "digest" (DigestData otherAlerts (List.length otherAlerts)).

Definition preferenceFilter (preferences : Preferences) (alert : Alert.t) : bool :=
  if (String.eqb (Alert.type alert) "warning" && negb (delayAlerts preferences))%bool
  then false
  else if (String.eqb (Alert.type alert) "success"
           && negb (deliveryAlerts preferences))%bool
  then false
  else true.

(** [processAlertNotifications(alerts, userEmail)], with the
    preferences that [getUserPreferences()] resolved to; the result is
    the sequence of calls made to the Notification Port. *)
Definition processAlertNotifications (preferences : Preferences)
    (alerts : list Alert.t) (email : string) : list Dispatch :=
  match alerts with
  | [] => []
  | _ :: _ =>
      if negb (emailNotifications preferences) then []
      else
        let filteredAlerts := filter (preferenceFilter preferences) alerts in
        let highPriorityAlerts :=
          filter (fun alert => String.eqb (Alert.priority alert) "high") filteredAlerts in
        let (made, ok) := sendEach (map (alertDispatch email) highPriorityAlerts) in
        if ok then
          let otherAlerts :=
            filter (fun alert => negb (String.eqb (Alert.priority alert) "high"))
                   filteredAlerts in
          if (0 <? List.length otherAlerts)%nat
          then (made ++ [digestDispatch email otherAlerts])%list
          else made
        else made
  end.

End Notifications.

(** ** The [useAlerts] hook *)

(** The state the hook owns: its two state cells, the alert set held by
    [alertStorage], the calls made so far to the Notification Port and
    the number of random draws made. *)
Record HookState := mkHookState {
  alerts : list Alert.t;
  previousShipments : list Shipment.t;
  savedAlerts : list Alert.t;
  sent : list Dispatch;
  draws : nat
}.

Definition initialState : HookState := mkHookState [] [] [] [] 0.

Section Hook.

Variable random : nat -> string.
Variable send : Dispatch -> bool.
Variable preferences : Preferences.
Variable env : Env.

(** [previousShipments.find(prev => prev.shipmentId ===
    shipment.shipmentId)?.status] *)
Definition previousStatusOf (previous : list Shipment.t) (shipment : Shipment.t)
    : option string :=
  match find (fun prev => JS.strictEq (Shipment.shipmentId prev)
                                      (Shipment.shipmentId shipment))
             previous with
  | Some previousShipment => Some (Shipment.status previousShipment)
  | None => None
  end.

(** The [shipments.forEach] that fills [newAlerts]. *)
Fixpoint collectAlerts (previous shipments : list Shipment.t) : Draw (list Alert.t) :=
  match shipments with
  | [] => ret []
  | shipment :: rest =>
      shipmentAlerts <- analyzeShipmentForAlerts random env shipment
                          (previousStatusOf previous shipment) ;;
      more <- collectAlerts previous rest ;;
      ret (shipmentAlerts ++ more)%list
  end.

(** The updater passed to [setAlerts] by the alert-generation effect. *)
Definition admitAlerts (newAlerts : list Alert.t) (shipments : list Shipment.t)
    (st : HookState) : HookState :=
  let prevAlerts := alerts st in
  let uniqueNewAlerts := deduplicateAlerts newAlerts prevAlerts in
  match uniqueNewAlerts with
  | [] => st
  | _ :: _ =>
      let updatedAlerts := (uniqueNewAlerts ++ prevAlerts)%list in
      let cleanedAlerts := cleanupOutdatedAlerts env updatedAlerts shipments in
      {| alerts := cleanedAlerts;
         previousShipments := previousShipments st;
         savedAlerts := cleanedAlerts;
         sent := (sent st ++ processAlertNotifications send preferences
                               uniqueNewAlerts "user@example.com")%list;
         draws := draws st |}
  end.

(** One run of the alert-generation effect for the collection
    [shipments]. *)
Definition generateAlerts (shipments : list Shipment.t) (st : HookState) : HookState :=
  match shipments with
  | [] => st
  | _ :: _ =>
      let (newAlerts, drawn) :=
        collectAlerts (previousShipments st) shipments (draws st) in
      let st' := match newAlerts with
                 | [] => st
                 | _ :: _ => admitAlerts newAlerts shipments st
                 end in
      {| alerts := alerts st';
         previousShipments := shipments;
         savedAlerts := savedAlerts st';
         sent := sent st';
         draws := drawn |}
  end.

Definition markDismissed (alertId : string) (alert : Alert.t) : Alert.t :=
  if String.eqb (Alert.id alert) alertId then
    {| Alert.id := Alert.id alert;
       Alert.type := Alert.type alert;
       Alert.priority := Alert.priority alert;
       Alert.title := Alert.title alert;
       Alert.message := Alert.message alert;
       Alert.icon := Alert.icon alert;
       Alert.timestamp := Alert.timestamp alert;
       Alert.shipmentId := Alert.shipmentId alert;
       Alert.trackingNumber := Alert.trackingNumber alert;
       Alert.dismissed := true;
       Alert.dismissedAt := Some (now env);
       Alert.read := Alert.read alert;
       Alert.readAt := Alert.readAt alert;
       Alert.metadata := Alert.metadata alert |}
  else alert.

(** [dismissAlert(alertId)]: the marked set is saved, the state keeps
    only what is not dismissed. *)
Definition dismissAlert (alertId : string) (st : HookState) : HookState :=
  let updatedAlerts := map (markDismissed alertId) (alerts st) in
  {| alerts := filter (fun alert => negb (Alert.dismissed alert)) updatedAlerts;
     previousShipments := previousShipments st;
     savedAlerts := updatedAlerts;
     sent := sent st;
     draws := draws st |}.

(** The [alerts] field the hook returns to its caller. *)
Definition visibleAlerts (st : HookState) : list Alert.t :=
  filter (fun alert => negb (Alert.dismissed alert)) (alerts st).

End Hook.

(** ** Vocabulary of the properties *)

(** The object literal built by [createAlert], given the drawn suffix. *)
Definition stamp (env : Env) (alertType : AlertType.t) (message : string)
    (shipment : Shipment.t) (pattern : option string) (suffix : string) : Alert.t :=
  fst (createAlert (fun _ => suffix) env alertType message shipment pattern 0%nat).

(** What one guarded [alerts.push] adds, and the draws it makes. *)
Definition fired (c : bool) (a : Alert.t) : list Alert.t := if c then [a] else [].
Definition drawsAfter (c : bool) (n : nat) : nat := if c then S n else n.

Section RuleAlerts.

Variable random : nat -> string.
Variable env : Env.

(** The alert each rule pushes, as a function of the draw it uses. *)
Definition overdueAlert s k :=
  stamp env ALERT_TYPES.DELAY_DETECTED (overdueMessage env s) s None (random k).
Definition delayedAlert s k :=
  stamp env (getDelayAlertType (getDelayReason s))
        (Shipment.nickname s ++ ": " ++ getDelayReason s) s None (random k).
Definition deliverySoonAlert s k :=
  stamp env ALERT_TYPES.DELIVERY_SOON
        (Shipment.nickname s ++ " is out for delivery and should arrive today")
        s None (random k).
Definition deliveredAlert s k :=
  stamp env ALERT_TYPES.DELIVERED
        (Shipment.nickname s ++ " has been successfully delivered") s None (random k).
Definition stuckAlert s k :=
  stamp env ALERT_TYPES.EXCEPTION
        (Shipment.nickname s ++ " hasn't been updated in "
         ++ JS.showZ (getHoursSinceUpdate env s) ++ " hours") s None (random k).
Definition routingAlert s k :=
  stamp env ALERT_TYPES.EXCEPTION
        (Shipment.nickname s
         ++ " is taking an unusual route - may indicate processing issues")
        s (Some "unusual_routing") (random k).
Definition carrierAlert s text k :=
  stamp env ALERT_TYPES.DELAY_DETECTED (Shipment.nickname s ++ ": " ++ text)
        s (Some "carrier_issue") (random k).

Definition carrierFired s k : list Alert.t :=
  match detectCarrierIssues env s with
  | Some text => [carrierAlert s text k]
  | None => []
  end.

(** The premium part of one analysis, starting at draw [n]. *)
Definition advancedFired s n : list Alert.t :=
  if hasPremiumFeatures env then
    (fired (hasUnusualRouting s) (routingAlert s n)
     ++ carrierFired s (drawsAfter (hasUnusualRouting s) n))%list
  else [].

(** The draw reached after the five unconditional rules. *)
Definition drawsOfRules s prev n : nat :=
  drawsAfter (isShipmentStuck env s)
    (drawsAfter (deliveredFires s prev)
       (drawsAfter (deliverySoonFires s)
          (drawsAfter (delayedFires s)
             (drawsAfter (overdueFires env s) n)))).

End RuleAlerts.

(** What every object built by [createAlert] carries. *)
Definition Stamped (env : Env) (s : Shipment.t) (a : Alert.t) : Prop :=
  Alert.timestamp a = Some (now env)
  /\ Alert.dismissed a = false
  /\ Alert.read a = None
  /\ Metadata.carrier (Alert.metadata a) = Shipment.carrier s
  /\ Metadata.status (Alert.metadata a) = Shipment.status s.

(** The delivered alerts of a batch are its alerts of type success. *)
Definition isSuccess (a : Alert.t) : bool := String.eqb (Alert.type a) "success".

(** The number of guards that hold among the five unconditional rules. *)
Definition firingRules (env : Env) (s : Shipment.t) (prev : option string) : nat :=
  List.length (filter (fun c : bool => c)
                 [overdueFires env s; delayedFires s; deliverySoonFires s;
                  deliveredFires s prev; isShipmentStuck env s]).

(** The preference rule in the words of the specification: a warning is
    suppressed unless [delayAlerts] is enabled, a success unless
    [deliveryAlerts] is. *)
Definition suppressed (preferences : Preferences) (a : Alert.t) : bool :=
  ((String.eqb (Alert.type a) "warning" && negb (delayAlerts preferences))
   || (String.eqb (Alert.type a) "success" && negb (deliveryAlerts preferences)))%bool.

Definition isHigh (a : Alert.t) : bool := String.eqb (Alert.priority a) "high".

Definition isDigest (d : Dispatch) : bool :=
  match shipmentData d with
  | DigestData _ _ => true
  | AlertData _ _ _ _ => false
  end.

(** A malformed candidate, in the words of the specification ("missing
    shipmentId or required field"): one that lacks a property among those
    an alert object of the source can lack. *)
Definition malformed (c : Alert.t) : Prop :=
  Alert.shipmentId c = None
  \/ Alert.trackingNumber c = None
  \/ Alert.timestamp c = None.

(** Two alerts clash when neither is dismissed and they share the key. *)
Definition clash (a b : Alert.t) : Prop :=
  Alert.dismissed a = false /\ Alert.dismissed b = false /\ sameKey a b = true.

(** At most one alert that is not dismissed per (shipmentId, type, title). *)
Inductive UniqueKeys : list Alert.t -> Prop :=
| UniqueKeys_nil : UniqueKeys []
| UniqueKeys_cons a l :
    (forall b, In b l -> ~ clash a b) -> UniqueKeys l -> UniqueKeys (a :: l).

(** ** Sample inputs *)

(** Inputs used to exercise the statements below. *)
Module Sample.
Definition random (n : nat) : string := "r" ++ JS.showZ (Z.of_nat n).
Definition clock : Z := 1700000000000.
Definition free : Env := mkEnv clock false.
Definition premium : Env := mkEnv clock true.
Definition preferences : Preferences := mkPreferences true true true false.

(** Due yesterday, still pending, updated three hours ago. *)
Definition pendingYesterday : Shipment.t :=
  Shipment.mk (Some "1") (Some "1Z999AA1234567890") (Some "ups") "Amazon Order"
    "pending" (Some (clock - 86400000)) (clock - 3 * 3600000)
    [HistoricalStatus.mk "pending" (Some (clock - 172800000)) (Some "Package received")].

(** Delayed, the last scan naming both the weather and customs. *)
Definition delayedAtCustoms : Shipment.t :=
  Shipment.mk (Some "2") (Some "7123456789012") (Some "fedex") "Birthday Gift"
    "delayed" (Some (clock + 86400000)) (clock - 3600000)
    [HistoricalStatus.mk "in_transit" (Some (clock - 172800000)) (Some "Atlanta, GA");
     HistoricalStatus.mk "delayed" (Some (clock - 43200000))
       (Some "Weather hold at Customs")].

Definition deliveredParcel : Shipment.t :=
  Shipment.mk (Some "3") (Some "9400100000000000000000") (Some "usps") "Books"
    "delivered" None (clock - 3600000)
    [HistoricalStatus.mk "delivered" (Some (clock - 3600000)) (Some "Front door")].

(** A USPS parcel in exception, due yesterday, silent for 73 hours. *)
Definition lateUsps : Shipment.t :=
  Shipment.mk (Some "4") (Some "9400111111111111111111") (Some "usps") "Parcel"
    "exception" (Some (clock - 86400000)) (clock - 73 * 3600000) [].
End Sample.

Module Malformed.
(** A shipment record without [shipmentId] and [trackingNumber]. *)
Definition shipment : Shipment.t :=
  Shipment.mk None None (Some "ups") "Gift" "delayed" None
    (Sample.clock - 3600000) [].

Definition candidate : Alert.t :=
  stamp Sample.free ALERT_TYPES.DELAY_DETECTED "Gift: Unexpected delay in transit"
    shipment None (Sample.random 0).
End Malformed.

Module Dismissed.
(** One cycle over a delayed shipment, then the user dismisses the
    alert, then the same collection is observed again. *)
Definition shipments : list Shipment.t := [Sample.delayedAtCustoms].

Definition afterFirstCycle : HookState :=
  generateAlerts Sample.random sendNotificationEmail Sample.preferences
    Sample.free shipments initialState.

Definition afterDismiss : HookState :=
  dismissAlert Sample.free "alert_1700000000000_r0" afterFirstCycle.

Definition afterSecondCycle : HookState :=
  generateAlerts Sample.random sendNotificationEmail Sample.preferences
    Sample.free shipments afterDismiss.
End Dismissed.

(** ** The remaining operations of the hook and of the service *)

Section HookOperations.

Variable env : Env.

(** [{ ...alert, read: true, readAt: new Date().toISOString() }] for the
    alert with the given id. *)
Definition markRead (alertId : string) (alert : Alert.t) : Alert.t :=
  if String.eqb (Alert.id alert) alertId then
    {| Alert.id := Alert.id alert;
       Alert.type := Alert.type alert;
       Alert.priority := Alert.priority alert;
       Alert.title := Alert.title alert;
       Alert.message := Alert.message alert;
       Alert.icon := Alert.icon alert;
       Alert.timestamp := Alert.timestamp alert;
       Alert.shipmentId := Alert.shipmentId alert;
       Alert.trackingNumber := Alert.trackingNumber alert;
       Alert.dismissed := Alert.dismissed alert;
       Alert.dismissedAt := Alert.dismissedAt alert;
       Alert.read := Some true;
       Alert.readAt := Some (now env);
       Alert.metadata := Alert.metadata alert |}
  else alert.

(** [markAlertAsRead(alertId)]: the marked set is saved and kept. *)
Definition markAlertAsRead (alertId : string) (st : HookState) : HookState :=
  let updatedAlerts := map (markRead alertId) (alerts st) in
  {| alerts := updatedAlerts;
     previousShipments := previousShipments st;
     savedAlerts := updatedAlerts;
     sent := sent st;
     draws := draws st |}.

(** [clearAllAlerts()] *)
Definition clearAllAlerts (st : HookState) : HookState :=
  {| alerts := [];
     previousShipments := previousShipments st;
     savedAlerts := [];
     sent := sent st;
     draws := draws st |}.

(** The effect run when the hook mounts: the saved alerts are loaded,
    cleaned against the collection [shipments] of that render, and saved
    back when the cleaning removed something. *)
Definition loadSavedAlerts (shipments : list Shipment.t) (st : HookState) : HookState :=
  let loaded := savedAlerts st in
  let cleanedAlerts := cleanupOutdatedAlerts env loaded shipments in
  {| alerts := cleanedAlerts;
     previousShipments := previousShipments st;
     savedAlerts := if negb (Nat.eqb (List.length cleanedAlerts) (List.length loaded))
                    then cleanedAlerts else loaded;
     sent := sent st;
     draws := draws st |}.

End HookOperations.

(** [alerts.filter(p).length] *)
Definition countWhere (p : Alert.t -> bool) (l : list Alert.t) : nat :=
  List.length (filter p l).

(** The object returned by [getAlertCounts] of the hook; [!alert.read]
    holds for an absent [read] as for [read: false]. *)
Module AlertCounts.
Record t := mk {
  total : nat;
  unread : nat;
  high : nat;
  medium : nat;
  low : nat;
  warning : nat;
  error : nat;
  info : nat;
  success : nat
}.
End AlertCounts.

Definition isUnread (a : Alert.t) : bool :=
  match Alert.read a with
  | Some true => false
  | _ => true
  end.

Definition getAlertCounts (st : HookState) : AlertCounts.t :=
  {| AlertCounts.total := List.length (alerts st);
     AlertCounts.unread := countWhere isUnread (alerts st);
     AlertCounts.high :=
       countWhere (fun a => String.eqb (Alert.priority a) "high") (alerts st);
     AlertCounts.medium :=
       countWhere (fun a => String.eqb (Alert.priority a) "medium") (alerts st);
     AlertCounts.low :=
       countWhere (fun a => String.eqb (Alert.priority a) "low") (alerts st);
     AlertCounts.warning :=
       countWhere (fun a => String.eqb (Alert.type a) "warning") (alerts st);
     AlertCounts.error :=
       countWhere (fun a => String.eqb (Alert.type a) "error") (alerts st);
     AlertCounts.info :=
       countWhere (fun a => String.eqb (Alert.type a) "info") (alerts st);
     AlertCounts.success :=
       countWhere (fun a => String.eqb (Alert.type a) "success") (alerts st) |}.

(** The names of the properties that a plain object inherits from
    [Object.prototype]. *)
Definition objectPrototypeNames : list string :=
  ["constructor"; "__defineGetter__"; "__defineSetter__"; "hasOwnProperty";
   "__lookupGetter__"; "__lookupSetter__"; "isPrototypeOf"; "propertyIsEnumerable";
   "toString"; "valueOf"; "__proto__"; "toLocaleString"].

Definition inheritedName (key : string) : bool :=
  existsb (String.eqb key) objectPrototypeNames.

(** A value stored under an own key of [summary.types]: a count, or the
    string that [value + 1] gives when the value read is not a number:
    the text of the inherited property followed by [ones] characters
    "1". *)
Inductive TypeEntry : Type :=
| Count (n : nat)
| InheritedText (ones : nat).

(** [value + 1] on a value already stored. *)
Definition addOne (v : TypeEntry) : TypeEntry :=
  match v with
  | Count n => Count (S n)
  | InheritedText ones => InheritedText (S ones)
  end.

(** [(undefined-or-inherited || 0) + 1]: what is stored under a key that
    is not an own key yet. *)
Definition firstEntry (key : string) : TypeEntry :=
  if inheritedName key then InheritedText 1 else Count 1.

(** The assignment on the own properties of the object, held as a list
    (their enumeration order is not modelled). *)
Fixpoint bumpOwn (type : string) (types : list (string * TypeEntry))
    : list (string * TypeEntry) :=
  match types with
  | [] => [(type, firstEntry type)]
  | (key, value) :: rest =>
      if String.eqb key type then (key, addOne value) :: rest
      else (key, value) :: bumpOwn type rest
  end.

(** [summary.types[type] = (summary.types[type] || 0) + 1] on the plain
    object [summary.types].  Under "__proto__" the assignment reaches the
    inherited setter, which ignores a string: no own key is made. *)
Definition bumpType (type : string) (types : list (string * TypeEntry))
    : list (string * TypeEntry) :=
  if String.eqb type "__proto__" then types else bumpOwn type types.

(** The own property of [summary.types] under a key, [None] when the
    object has no such own key. *)
Fixpoint ownType (type : string) (types : list (string * TypeEntry)) : option TypeEntry :=
  match types with
  | [] => None
  | (key, value) :: rest =>
      if String.eqb key type then Some value else ownType type rest
  end.

(** The sum of the values of [summary.types] that are numbers. *)
Definition countsTotal (types : list (string * TypeEntry)) : nat :=
  list_sum (map (fun entry => match snd entry with
                              | Count n => n
                              | InheritedText _ => 0%nat
                              end) types).

(** The entries of a well-formed [types] object: text under the
    inherited names, counts under the others. *)
Definition WellFormedTypes (types : list (string * TypeEntry)) : Prop :=
  forall k v, In (k, v) types ->
              if inheritedName k then exists n, v = InheritedText n
              else exists n, v = Count n.

(** The entry under a key after [k] assignments to it. *)
Definition entryAfter (key : string) (k : nat) (start : option TypeEntry)
    : option TypeEntry :=
  Nat.iter k (fun o => Some (match o with
                             | Some v => addOne v
                             | None => firstEntry key
                             end)) start.

Module AlertSummary.
Record t := mk {
  total : nat;
  high : nat;
  medium : nat;
  low : nat;
  types : list (string * TypeEntry)
}.
End AlertSummary.

Definition getAlertSummary (alerts : list Alert.t) : AlertSummary.t :=
  {| AlertSummary.total := List.length alerts;
     AlertSummary.high :=
       countWhere (fun a => String.eqb (Alert.priority a) "high") alerts;
     AlertSummary.medium :=
       countWhere (fun a => String.eqb (Alert.priority a) "medium") alerts;
     AlertSummary.low :=
       countWhere (fun a => String.eqb (Alert.priority a) "low") alerts;
     AlertSummary.types :=
       fold_left (fun types alert => bumpType (Alert.type alert) types) alerts [] |}.

(** [alertStorage.cleanup()] of the storage service, on the saved set:
    [alertDate > cutoffDate] with the cutoff 7 days before the clock; an
    unparsable date compares false. *)
Definition alertStorageCleanup (env : Env) (saved : list Alert.t) : list Alert.t :=
  let cutoffDate := now env - 7 * 24 * 60 * 60 * 1000 in
  filter (fun alert =>
            match Alert.timestamp alert with
            | Some alertDate => (cutoffDate <? alertDate)%Z
            | None => false
            end)
         saved.

(** The dedup key of an alert. *)
Definition keyOf (a : Alert.t) : option string * string * string :=
  (Alert.shipmentId a, Alert.type a, Alert.title a).

(** Where an alert of one analysis comes from. *)
Inductive Origin (random : nat -> string) (env : Env) (s : Shipment.t)
    (prev : option string) (a : Alert.t) : Prop :=
| FromOverdue k : overdueFires env s = true -> a = overdueAlert random env s k ->
                  Origin random env s prev a
| FromDelayed k : delayedFires s = true -> a = delayedAlert random env s k ->
                  Origin random env s prev a
| FromDeliverySoon k : deliverySoonFires s = true -> a = deliverySoonAlert random env s k ->
                       Origin random env s prev a
| FromDelivered k : deliveredFires s prev = true -> a = deliveredAlert random env s k ->
                    Origin random env s prev a
| FromStuck k : isShipmentStuck env s = true -> a = stuckAlert random env s k ->
                Origin random env s prev a
| FromRouting k : hasPremiumFeatures env = true -> hasUnusualRouting s = true ->
                  a = routingAlert random env s k -> Origin random env s prev a
| FromCarrier k text : hasPremiumFeatures env = true ->
                       detectCarrierIssues env s = Some text ->
                       a = carrierAlert random env s text k -> Origin random env s prev a.

(** * Properties *)

(** ** Facts about the JavaScript primitives *)

Module JSFacts.

Lemma strictEq_spec a b : reflect (a = b) (JS.strictEq a b).
Proof.
  destruct a as [x|], b as [y|]; simpl; try (constructor; congruence).
  destruct (String.eqb_spec x y); constructor; congruence.
Qed.

Lemma strictEq_refl a : JS.strictEq a a = true.
Proof. destruct (strictEq_spec a a); congruence. Qed.

End JSFacts.


(** ** Running the rule engine *)

Lemma length_fired c a : List.length (fired c a) = if c then 1%nat else 0%nat.
Proof. destruct c; reflexivity. Qed.

Lemma in_fired c a x : In x (fired c a) <-> c = true /\ x = a.
Proof.
  destruct c; simpl; split; intros H.
  - destruct H as [H | []]. auto.
  - destruct H as [_ ->]. auto.
  - destruct H.
  - destruct H as [H _]. discriminate H.
Qed.

Section RunningTheEngine.

Variable random : nat -> string.
Variable env : Env.

Lemma createAlert_run ty msg s p n :
  createAlert random env ty msg s p n = (stamp env ty msg s p (random n), S n).
Proof. reflexivity. Qed.

Lemma when_createAlert_run c ty msg s p n :
  when c (createAlert random env ty msg s p) n
  = (fired c (stamp env ty msg s p (random n)), drawsAfter c n).
Proof. destruct c; reflexivity. Qed.

Lemma bind_run {A B} (c : Draw A) (k : A -> Draw B) n :
  bind c k n = k (fst (c n)) (snd (c n)).
Proof. unfold bind. destruct (c n); reflexivity. Qed.

Lemma length_carrierFired s k :
  List.length (carrierFired random env s k)
  = match detectCarrierIssues env s with Some _ => 1%nat | None => 0%nat end.
Proof. unfold carrierFired. destruct (detectCarrierIssues env s); reflexivity. Qed.

Lemma detectAdvancedPatterns_run s n :
  detectAdvancedPatterns random env s n
  = ((fired (hasUnusualRouting s) (routingAlert random env s n)
      ++ carrierFired random env s (drawsAfter (hasUnusualRouting s) n))%list,
     (drawsAfter (hasUnusualRouting s) n
      + List.length (carrierFired random env s (drawsAfter (hasUnusualRouting s) n)))%nat).
Proof.
  unfold detectAdvancedPatterns, carrierFired.
  rewrite bind_run, when_createAlert_run. cbn [fst snd].
  destruct (detectCarrierIssues env s) as [text|].
  - rewrite bind_run, bind_run, createAlert_run. cbn [fst snd ret List.length].
    unfold ret, carrierAlert. f_equal. lia.
  - rewrite bind_run. cbn [fst snd ret List.length]. unfold ret. f_equal. lia.
Qed.

(** [analyzeShipmentForAlerts] returns the alerts of the rules whose
    guard holds, in source order. *)
Lemma analyze_alerts s prev n :
  fst (analyzeShipmentForAlerts random env s prev n)
  = (fired (overdueFires env s) (overdueAlert random env s n)
     ++ fired (delayedFires s) (delayedAlert random env s (drawsAfter (overdueFires env s) n))
     ++ fired (deliverySoonFires s)
          (deliverySoonAlert random env s
             (drawsAfter (delayedFires s) (drawsAfter (overdueFires env s) n)))
     ++ fired (deliveredFires s prev)
          (deliveredAlert random env s
             (drawsAfter (deliverySoonFires s)
                (drawsAfter (delayedFires s) (drawsAfter (overdueFires env s) n))))
     ++ fired (isShipmentStuck env s)
          (stuckAlert random env s
             (drawsAfter (deliveredFires s prev)
                (drawsAfter (deliverySoonFires s)
                   (drawsAfter (delayedFires s)
                      (drawsAfter (overdueFires env s) n)))))
     ++ advancedFired random env s (drawsOfRules env s prev n))%list.
Proof.
  unfold analyzeShipmentForAlerts, advancedFired, drawsOfRules.
  repeat (rewrite bind_run, when_createAlert_run; cbn [fst snd]).
  rewrite bind_run.
  destruct (hasPremiumFeatures env).
  - rewrite detectAdvancedPatterns_run. reflexivity.
  - reflexivity.
Qed.

Lemma analyze_draws s prev n :
  snd (analyzeShipmentForAlerts random env s prev n)
  = (n + List.length (fst (analyzeShipmentForAlerts random env s prev n)))%nat.
Proof.
  rewrite analyze_alerts.
  unfold analyzeShipmentForAlerts, advancedFired.
  repeat (rewrite bind_run, when_createAlert_run; cbn [fst snd]).
  rewrite bind_run.
  repeat rewrite length_app. repeat rewrite length_fired.
  destruct (hasPremiumFeatures env).
  - rewrite detectAdvancedPatterns_run. cbn [fst snd ret]. unfold ret. cbn [snd].
    rewrite length_app, length_fired. rewrite !length_carrierFired.
    destruct (overdueFires env s), (delayedFires s), (deliverySoonFires s),
      (deliveredFires s prev), (isShipmentStuck env s), (hasUnusualRouting s);
      cbn [drawsAfter]; lia.
  - unfold ret. cbn [fst snd List.length].
    destruct (overdueFires env s), (delayedFires s), (deliverySoonFires s),
      (deliveredFires s prev), (isShipmentStuck env s); cbn [drawsAfter]; lia.
Qed.

End RunningTheEngine.

(** ** The rule engine: what a candidate carries and which rules fire *)

Ltac status_cases s :=
  repeat match goal with
         | |- context [String.eqb (Shipment.status s) ?lit] =>
             destruct (String.eqb_spec (Shipment.status s) lit)
         end.

Lemma append_inj_l (p a b : string) : p ++ a = p ++ b -> a = b.
Proof.
  induction p as [|c p IH]; simpl; intros H.
  - exact H.
  - injection H as H. auto.
Qed.

Lemma delayAlertType_cases reason :
  getDelayAlertType reason = ALERT_TYPES.WEATHER_DELAY
  \/ getDelayAlertType reason = ALERT_TYPES.CUSTOMS_DELAY
  \/ getDelayAlertType reason = ALERT_TYPES.ADDRESS_ISSUE
  \/ getDelayAlertType reason = ALERT_TYPES.DELAY_DETECTED.
Proof.
  unfold getDelayAlertType.
  destruct (JS.includes (JS.toLowerCase reason) "weather"); auto.
  destruct (JS.includes (JS.toLowerCase reason) "customs"); auto.
  destruct (JS.includes (JS.toLowerCase reason) "address"); auto.
Qed.

Lemma stamp_Stamped env ty msg s p suffix : Stamped env s (stamp env ty msg s p suffix).
Proof. repeat split. Qed.

Lemma Forall_fired (P : Alert.t -> Prop) c a : P a -> Forall P (fired c a).
Proof. destruct c; simpl; auto. Qed.

(** C3 (as amended): every candidate returned by
    [analyzeShipmentForAlerts] carries [timestamp = now],
    [dismissed = false], no [read] property at all, and [metadata.carrier]
    and [metadata.status] copied from the shipment; its id is
    ["alert_" ++ now ++ "_" ++ suffix] for the random suffix of its own
    draw, so the ids of one call are pairwise distinct whenever the
    suffixes drawn are. *)
Theorem C3_candidate_stamp (random : nat -> string) (env : Env) (s : Shipment.t)
    (prev : option string) (n : nat) :
  let result := fst (analyzeShipmentForAlerts random env s prev n) in
  Forall (Stamped env s) result
  /\ map Alert.id result
     = map (fun k => "alert_" ++ JS.showZ (now env) ++ "_" ++ random k)
           (seq n (List.length result))
  /\ (NoDup (map random (seq n (List.length result))) -> NoDup (map Alert.id result)).
Proof.
  cbv zeta.
  assert (Hids : map Alert.id (fst (analyzeShipmentForAlerts random env s prev n))
                 = map (fun k => "alert_" ++ JS.showZ (now env) ++ "_" ++ random k)
                       (seq n (List.length
                                 (fst (analyzeShipmentForAlerts random env s prev n))))).
  { rewrite analyze_alerts. unfold advancedFired, drawsOfRules, carrierFired.
    destruct (overdueFires env s), (delayedFires s), (deliverySoonFires s),
      (deliveredFires s prev), (isShipmentStuck env s), (hasPremiumFeatures env),
      (hasUnusualRouting s), (detectCarrierIssues env s); reflexivity. }
  split; [| split].
  - rewrite analyze_alerts. unfold advancedFired, carrierFired.
    repeat (apply Forall_app; split); try (apply Forall_fired, stamp_Stamped).
    destruct (hasPremiumFeatures env); [| constructor].
    apply Forall_app; split; [apply Forall_fired, stamp_Stamped |].
    destruct (detectCarrierIssues env s); repeat constructor.
  - exact Hids.
  - intros Hnodup. rewrite Hids.
    rewrite <- (map_map random (fun r => "alert_" ++ JS.showZ (now env) ++ "_" ++ r)).
    apply Injective_map_NoDup; [| exact Hnodup].
    intros a b Hab. apply append_inj_l in Hab. apply append_inj_l in Hab.
    apply (append_inj_l "_") in Hab. exact Hab.
Qed.

Lemma C3_candidate_stamp_witness :
  NoDup (map Sample.random (seq 0%nat 1%nat))
  /\ NoDup (map Alert.id
              (fst (analyzeShipmentForAlerts Sample.random Sample.free
                      Sample.pendingYesterday None 0%nat))).
Proof.
  split.
  - repeat constructor. simpl. tauto.
  - apply (C3_candidate_stamp Sample.random Sample.free Sample.pendingYesterday None 0%nat).
    repeat constructor. simpl. tauto.
Defined.

(** C3 fails as stated: the candidate of the overdue rule has no [read]
    property, so it does not carry [read = false]. *)
Lemma C3_read_is_absent :
  exists a,
    In a (fst (analyzeShipmentForAlerts Sample.random Sample.free
                 Sample.pendingYesterday None 0%nat))
    /\ Alert.read a <> Some false.
Proof.
  eexists. split.
  - left. reflexivity.
  - discriminate.
Qed.

(** [Math.ceil] of a positive part of a day is 1. *)
Lemma daysOverdue_within_a_day (d : Z) :
  0 < d <= 86400000 -> Qceiling (d # msPerDay) = 1.
Proof.
  intros Hd. unfold Qceiling, Qfloor, Qopp, msPerDay. cbn [Qnum Qden].
  rewrite <- (Z.div_unique (- d) 86400000 (-1) (86400000 - d)); lia.
Qed.

Lemma overdueFires_true env s est :
  Shipment.estimatedDelivery s = Some est ->
  est < now env ->
  Shipment.status s <> "delivered" ->
  Shipment.status s <> "delayed" ->
  overdueFires env s = true.
Proof.
  intros Hest Hpast Hd1 Hd2. unfold overdueFires. rewrite Hest.
  apply Z.ltb_lt in Hpast. rewrite Hpast.
  status_cases s; try contradiction. reflexivity.
Qed.

(** C5: a shipment whose [estimatedDelivery] is set and past, and whose
    status is neither delivered nor delayed, gets the overdue alert (the
    first of the result): type warning, priority high, the message giving
    ceil((now - estimatedDelivery) / 1 day) days overdue.  When moreover
    the shipment is pending, due at most one day ago (yesterday at this
    time included), updated within the last 48 hours and the premium gate
    is off, the result is that single alert and it reads
    "1 day(s) overdue". *)
Theorem C5_overdue_alert (random : nat -> string) (env : Env) (s : Shipment.t)
    (prev : option string) (n : nat) (est : Z) :
  Shipment.estimatedDelivery s = Some est ->
  est < now env ->
  Shipment.status s <> "delivered" ->
  Shipment.status s <> "delayed" ->
  let result := fst (analyzeShipmentForAlerts random env s prev n) in
  (exists a rest,
      result = a :: rest
      /\ Alert.type a = "warning"
      /\ Alert.priority a = "high"
      /\ Alert.message a
         = Shipment.nickname s ++ " is "
           ++ JS.showZ (Qceiling ((now env - est) # msPerDay)) ++ " day(s) overdue")
  /\ (Shipment.status s = "pending" ->
      now env - 86400000 <= est ->
      getHoursSinceUpdate env s <= 48 ->
      hasPremiumFeatures env = false ->
      exists a,
        result = [a]
        /\ Alert.type a = "warning"
        /\ Alert.priority a = "high"
        /\ Alert.message a = Shipment.nickname s ++ " is 1 day(s) overdue").
Proof.
  intros Hest Hpast Hd1 Hd2. cbv zeta.
  rewrite analyze_alerts, (overdueFires_true env s est Hest Hpast Hd1 Hd2).
  split.
  - eexists. eexists. split; [reflexivity |].
    repeat split. unfold overdueAlert, overdueMessage, getDaysOverdue.
    rewrite Hest. reflexivity.
  - intros Hpending Hyesterday Hrecent Hfree.
    assert (Hstuck : isShipmentStuck env s = false).
    { unfold isShipmentStuck. rewrite Hpending. simpl.
      apply Z.ltb_ge in Hrecent. rewrite Hrecent. reflexivity. }
    unfold advancedFired, delayedFires, deliverySoonFires, deliveredFires.
    rewrite Hstuck, Hfree, Hpending. simpl.
    eexists. split; [reflexivity |].
    repeat split. unfold overdueAlert, overdueMessage, getDaysOverdue.
    rewrite Hest, daysOverdue_within_a_day by lia.
    reflexivity.
Qed.

Lemma C5_overdue_alert_witness :
  exists a,
    fst (analyzeShipmentForAlerts Sample.random Sample.free
           Sample.pendingYesterday None 0%nat) = [a]
    /\ Alert.type a = "warning"
    /\ Alert.priority a = "high"
    /\ Alert.message a = "Amazon Order is 1 day(s) overdue".
Proof.
  apply (C5_overdue_alert Sample.random Sample.free Sample.pendingYesterday None 0%nat
           (Sample.clock - 86400000)).
  - reflexivity.
  - vm_compute. reflexivity.
  - discriminate.
  - discriminate.
  - reflexivity.
  - vm_compute. discriminate.
  - vm_compute. discriminate.
  - reflexivity.
Defined.

(** The classification of a delayed shipment reads only whether the last
    location mentions each keyword. *)
Lemma delay_classification s :
  let mentions := locationMentions (latestStatusOf s) in
  getDelayAlertType (getDelayReason s)
  = if mentions "weather" then ALERT_TYPES.WEATHER_DELAY
    else if mentions "customs" then ALERT_TYPES.CUSTOMS_DELAY
    else if mentions "address" then ALERT_TYPES.ADDRESS_ISSUE
    else ALERT_TYPES.DELAY_DETECTED.
Proof.
  cbv zeta. unfold getDelayReason.
  destruct (locationMentions (latestStatusOf s) "weather"); [reflexivity |].
  destruct (locationMentions (latestStatusOf s) "customs"); [reflexivity |].
  destruct (locationMentions (latestStatusOf s) "address"); reflexivity.
Qed.

(** C6 (as amended): for a delayed shipment the first alert returned is
    the delay alert (the only one when the premium gate is off), and its
    subtype is decided by the first keyword, in the order weather,
    customs, address, that the lower-cased location of the latest history
    entry contains: weather-delay/medium, customs-delay/medium,
    address-issue/high, and the generic delay alert/high when it contains
    none of them. *)
Theorem C6_delay_classification (random : nat -> string) (env : Env) (s : Shipment.t)
    (prev : option string) (n : nat) :
  Shipment.status s = "delayed" ->
  let mentions := locationMentions (latestStatusOf s) in
  exists a rest,
    fst (analyzeShipmentForAlerts random env s prev n) = a :: rest
    /\ (hasPremiumFeatures env = false -> rest = [])
    /\ (mentions "weather" = true ->
        Alert.title a = "Weather Delay" /\ Alert.type a = "warning"
        /\ Alert.priority a = "medium")
    /\ (mentions "weather" = false -> mentions "customs" = true ->
        Alert.title a = "Customs Processing" /\ Alert.type a = "warning"
        /\ Alert.priority a = "medium")
    /\ (mentions "weather" = false -> mentions "customs" = false ->
        mentions "address" = true ->
        Alert.title a = "Address Problem" /\ Alert.type a = "error"
        /\ Alert.priority a = "high")
    /\ (mentions "weather" = false -> mentions "customs" = false ->
        mentions "address" = false ->
        Alert.title a = "Shipment Delayed" /\ Alert.type a = "warning"
        /\ Alert.priority a = "high").
Proof.
  intros Hdelayed. cbv zeta.
  assert (Hov : overdueFires env s = false).
  { unfold overdueFires. rewrite Hdelayed.
    destruct (Shipment.estimatedDelivery s); [| reflexivity].
    simpl. apply andb_false_r. }
  assert (Hstuck : isShipmentStuck env s = false).
  { unfold isShipmentStuck. rewrite Hdelayed. simpl. apply andb_false_r. }
  rewrite analyze_alerts, Hov, Hstuck.
  unfold delayedFires, deliverySoonFires, deliveredFires, advancedFired.
  rewrite Hdelayed. simpl.
  eexists. eexists. split; [reflexivity |].
  split.
  { intros Hfree. rewrite Hfree. reflexivity. }
  unfold delayedAlert, stamp. cbn [fst createAlert bind randomSuffix ret
    Alert.title Alert.type Alert.priority].
  rewrite (delay_classification s). cbv zeta.
  repeat split; intros; repeat match goal with H : _ = _ |- _ => rewrite H end;
    reflexivity.
Qed.

Lemma C6_delay_classification_witness :
  exists a rest,
    fst (analyzeShipmentForAlerts Sample.random Sample.free
           Sample.delayedAtCustoms None 0%nat) = a :: rest
    /\ Alert.title a = "Weather Delay".
Proof.
  destruct (C6_delay_classification Sample.random Sample.free Sample.delayedAtCustoms
              None 0%nat eq_refl) as (a & rest & Hres & _ & Hweather & _).
  exists a, rest. split; [exact Hres |].
  apply Hweather. reflexivity.
Defined.

(** C6 fails as stated: the latest location "Weather hold at Customs"
    contains "customs", yet the alert is the weather-delay one, not the
    customs-delay one. *)
Lemma C6_customs_text_classified_as_weather :
  Shipment.status Sample.delayedAtCustoms = "delayed"
  /\ locationMentions (latestStatusOf Sample.delayedAtCustoms) "customs" = true
  /\ map Alert.title
         (fst (analyzeShipmentForAlerts Sample.random Sample.free
                 Sample.delayedAtCustoms None 0%nat))
     = ["Weather Delay"]
  /\ "Weather Delay" <> "Customs Processing".
Proof. repeat split. discriminate. Qed.

Lemma delayedAlert_not_success random env s k :
  isSuccess (delayedAlert random env s k) = false.
Proof.
  unfold isSuccess, delayedAlert, stamp.
  cbn [fst createAlert bind randomSuffix ret Alert.type].
  destruct (delayAlertType_cases (getDelayReason s)) as [H | [H | [H | H]]];
    rewrite H; reflexivity.
Qed.

Lemma filter_fired f c a :
  filter f (fired c a) = fired (c && f a) a.
Proof. destruct c; simpl; [destruct (f a) |]; reflexivity. Qed.

Lemma success_alerts random env s prev n :
  filter isSuccess (fst (analyzeShipmentForAlerts random env s prev n))
  = fired (deliveredFires s prev)
      (deliveredAlert random env s
         (drawsAfter (deliverySoonFires s)
            (drawsAfter (delayedFires s) (drawsAfter (overdueFires env s) n)))).
Proof.
  rewrite analyze_alerts. repeat rewrite filter_app. repeat rewrite filter_fired.
  rewrite delayedAlert_not_success.
  replace (filter isSuccess (advancedFired random env s (drawsOfRules env s prev n)))
    with (@nil Alert.t).
  - unfold overdueAlert, deliverySoonAlert, deliveredAlert, stuckAlert, isSuccess, stamp.
    cbn [fst createAlert bind randomSuffix ret Alert.type AlertType.type
         ALERT_TYPES.DELAY_DETECTED ALERT_TYPES.DELIVERY_SOON ALERT_TYPES.DELIVERED
         ALERT_TYPES.EXCEPTION].
    replace ("warning" =? "success") with false by reflexivity.
    replace ("info" =? "success") with false by reflexivity.
    replace ("error" =? "success") with false by reflexivity.
    replace ("success" =? "success") with true by reflexivity.
    repeat rewrite andb_false_r. rewrite andb_true_r.
    cbn [fired app]. rewrite app_nil_r. reflexivity.
  - unfold advancedFired, carrierFired.
    destruct (hasPremiumFeatures env); [| reflexivity].
    destruct (hasUnusualRouting s), (detectCarrierIssues env s); reflexivity.
Qed.

(** C7: [analyzeShipmentForAlerts] returns a success alert of priority
    medium iff the status is delivered and the previous status supplied is
    not delivered; so the transition in_transit to delivered gives exactly
    one delivered alert and delivered after delivered gives none. *)
Theorem C7_delivered_edge (random : nat -> string) (env : Env) (s : Shipment.t)
    (prev : option string) (n : nat) :
  let result := fst (analyzeShipmentForAlerts random env s prev n) in
  ((exists a, In a result /\ Alert.type a = "success" /\ Alert.priority a = "medium")
   <-> (Shipment.status s = "delivered" /\ prev <> Some "delivered"))
  /\ (Shipment.status s = "delivered" -> prev = Some "in_transit" ->
      List.length (filter isSuccess result) = 1%nat)
  /\ (Shipment.status s = "delivered" -> prev = Some "delivered" ->
      List.length (filter isSuccess result) = 0%nat).
Proof.
  cbv zeta.
  assert (Hguard : deliveredFires s prev = true
                   <-> Shipment.status s = "delivered" /\ prev <> Some "delivered").
  { unfold deliveredFires. rewrite andb_true_iff, negb_true_iff.
    destruct (String.eqb_spec (Shipment.status s) "delivered");
      destruct (JSFacts.strictEq_spec prev (Some "delivered")); split;
      intros [H1 H2]; try discriminate; try contradiction; auto. }
  split; [| split].
  - rewrite <- Hguard. split.
    + intros (a & Hin & Htype & _).
      assert (Hf : In a (filter isSuccess
                           (fst (analyzeShipmentForAlerts random env s prev n)))).
      { apply filter_In. split; [exact Hin |].
        unfold isSuccess. rewrite Htype. reflexivity. }
      rewrite success_alerts in Hf. apply in_fired in Hf. tauto.
    + intros Hfires.
      assert (Hf : In (deliveredAlert random env s
                         (drawsAfter (deliverySoonFires s)
                            (drawsAfter (delayedFires s)
                               (drawsAfter (overdueFires env s) n))))
                      (filter isSuccess
                         (fst (analyzeShipmentForAlerts random env s prev n)))).
      { rewrite success_alerts, Hfires. left. reflexivity. }
      apply filter_In in Hf. destruct Hf as [Hin _].
      eexists. split; [exact Hin |]. split; reflexivity.
  - intros Hs Hp. rewrite success_alerts, length_fired.
    replace (deliveredFires s prev) with true; [reflexivity |].
    symmetry. apply Hguard. split; [exact Hs |]. rewrite Hp. discriminate.
  - intros Hs Hp. rewrite success_alerts, length_fired.
    unfold deliveredFires. rewrite Hp, Hs. reflexivity.
Qed.

Lemma C7_delivered_edge_witness :
  List.length (filter isSuccess
                 (fst (analyzeShipmentForAlerts Sample.random Sample.free
                         Sample.deliveredParcel (Some "in_transit") 0%nat))) = 1%nat
  /\ List.length (filter isSuccess
                    (fst (analyzeShipmentForAlerts Sample.random Sample.free
                            Sample.deliveredParcel (Some "delivered") 0%nat))) = 0%nat.
Proof.
  split.
  - apply (C7_delivered_edge Sample.random Sample.free Sample.deliveredParcel
             (Some "in_transit") 0%nat); reflexivity.
  - apply (C7_delivered_edge Sample.random Sample.free Sample.deliveredParcel
             (Some "delivered") 0%nat); reflexivity.
Defined.

(** C10: with the premium gate off one call returns one candidate per
    firing rule and at most two candidates; two are returned only for the
    pairs overdue + stuck (status in_transit or pending) and overdue +
    out-for-delivery (status out_for_delivery); the statuses delayed,
    delivered and exception give at most one. *)
Theorem C10_at_most_two_candidates (random : nat -> string) (env : Env)
    (s : Shipment.t) (prev : option string) (n : nat) :
  hasPremiumFeatures env = false ->
  let result := fst (analyzeShipmentForAlerts random env s prev n) in
  List.length result = firingRules env s prev
  /\ (List.length result <= 2)%nat
  /\ (List.length result = 2%nat ->
      (overdueFires env s = true /\ isShipmentStuck env s = true
       /\ delayedFires s = false /\ deliverySoonFires s = false
       /\ deliveredFires s prev = false
       /\ (Shipment.status s = "in_transit" \/ Shipment.status s = "pending"))
      \/ (overdueFires env s = true /\ deliverySoonFires s = true
          /\ delayedFires s = false /\ deliveredFires s prev = false
          /\ isShipmentStuck env s = false
          /\ Shipment.status s = "out_for_delivery"))
  /\ (Shipment.status s = "delayed" \/ Shipment.status s = "delivered"
      \/ Shipment.status s = "exception" ->
      (List.length result <= 1)%nat).
Proof.
  intros Hfree. cbv zeta.
  rewrite analyze_alerts. unfold advancedFired, firingRules. rewrite Hfree.
  repeat rewrite length_app. repeat rewrite length_fired.
  unfold overdueFires, delayedFires, deliverySoonFires, deliveredFires, isShipmentStuck.
  destruct (Shipment.estimatedDelivery s) as [est|];
    [destruct (est <? now env)%Z |];
    destruct (48 <? getHoursSinceUpdate env s)%Z;
    destruct (JS.strictEq prev (Some "delivered"));
    status_cases s; try congruence; cbn;
    (split; [reflexivity |]); (split; [lia |]);
    (split; [intros H2; try discriminate H2; tauto |]);
    intros [H | [H | H]]; try congruence; lia.
Qed.

Lemma C10_at_most_two_candidates_witness :
  (List.length (fst (analyzeShipmentForAlerts Sample.random Sample.free
                       Sample.pendingYesterday None 0%nat)) <= 2)%nat.
Proof.
  apply (C10_at_most_two_candidates Sample.random Sample.free Sample.pendingYesterday
           None 0%nat).
  reflexivity.
Defined.

(** ** The lifecycle manager: cleanup and notification *)

Lemma filter_idempotent {A : Type} (f : A -> bool) (l : list A) :
  filter f (filter f l) = filter f l.
Proof.
  induction l as [|x l IH]; simpl.
  - reflexivity.
  - destruct (f x) eqn:Hx; simpl; [rewrite Hx, IH |]; auto.
Qed.

(** C8: with the clock and the shipment collection fixed, cleaning an
    already cleaned alert set changes nothing. *)
Theorem C8_cleanup_idempotent (env : Env) (S : list Alert.t)
    (shipments : list Shipment.t) :
  cleanupOutdatedAlerts env (cleanupOutdatedAlerts env S shipments) shipments
  = cleanupOutdatedAlerts env S shipments.
Proof. unfold cleanupOutdatedAlerts. apply filter_idempotent. Qed.

Lemma preferenceFilter_suppressed preferences a :
  preferenceFilter preferences a = negb (suppressed preferences a).
Proof.
  unfold preferenceFilter, suppressed.
  destruct (String.eqb (Alert.type a) "warning" && negb (delayAlerts preferences))%bool;
    [reflexivity |].
  destruct (String.eqb (Alert.type a) "success" && negb (deliveryAlerts preferences))%bool;
    reflexivity.
Qed.

Lemma sendEach_all_resolve (send : Dispatch -> bool) (ds : list Dispatch) :
  (forall d, send d = true) -> sendEach send ds = (ds, true).
Proof.
  intros Hok. induction ds as [|d ds IH]; simpl.
  - reflexivity.
  - rewrite Hok, IH. reflexivity.
Qed.

Lemma filter_isDigest_alerts email (l : list Alert.t) :
  filter isDigest (map (alertDispatch email) l) = [].
Proof. induction l as [|a l IH]; simpl; auto. Qed.

Lemma filter_notDigest_alerts email (l : list Alert.t) :
  filter (fun d => negb (isDigest d)) (map (alertDispatch email) l)
  = map (alertDispatch email) l.
Proof. induction l as [|a l IH]; simpl; [| rewrite IH]; auto. Qed.

(** The calls made when every call resolves and e-mail is enabled. *)
Lemma notifications_when_enabled (send : Dispatch -> bool) (preferences : Preferences)
    (admitted : list Alert.t) (email : string) :
  (forall d, send d = true) ->
  emailNotifications preferences = true ->
  let remaining := filter (fun a => negb (suppressed preferences a)) admitted in
  processAlertNotifications send preferences admitted email
  = (map (alertDispatch email) (filter isHigh remaining)
     ++ match filter (fun a => negb (isHigh a)) remaining with
        | [] => []
        | o :: others => [digestDispatch email (o :: others)]
        end)%list.
Proof.
  intros Hok Hon. cbv zeta. unfold processAlertNotifications.
  rewrite Hon. cbn [negb].
  rewrite (filter_ext _ _ (preferenceFilter_suppressed preferences)).
  destruct admitted as [|a0 rest]; [reflexivity |].
  rewrite (sendEach_all_resolve send _ Hok).
  unfold isHigh.
  destruct (filter (fun a => negb (String.eqb (Alert.priority a) "high"))
              (filter (fun a => negb (suppressed preferences a)) (a0 :: rest)));
    cbn [List.length Nat.ltb Nat.leb]; [rewrite app_nil_r |]; reflexivity.
Qed.

(** C9: over a Notification Port whose calls resolve, nothing is
    dispatched when [emailNotifications] is off; otherwise the alerts
    that the preferences do not suppress are split by priority: each high
    one gets its own call, to the given recipient, of kind "alert", with
    the alert's tracking number, the status of its metadata, its message
    and its title, in order; then comes one call of kind "digest"
    carrying the others and their count (no digest when there are no
    others). *)
Theorem C9_notification_policy (send : Dispatch -> bool) (preferences : Preferences)
    (admitted : list Alert.t) (email : string) :
  (forall d, send d = true) ->
  let calls := processAlertNotifications send preferences admitted email in
  let remaining := filter (fun a => negb (suppressed preferences a)) admitted in
  let high := filter isHigh remaining in
  let others := filter (fun a => negb (isHigh a)) remaining in
  (emailNotifications preferences = false -> calls = [])
  /\ (emailNotifications preferences = true ->
      filter (fun d => negb (isDigest d)) calls
      = map (fun a => mkDispatch email "alert"
                        (AlertData (Alert.trackingNumber a)
                                   (Metadata.status (Alert.metadata a))
                                   (Alert.message a)
                                   (Alert.title a)))
            high
      /\ filter isDigest calls
         = match others with
           | [] => []
           | _ :: _ => [mkDispatch email "digest" (DigestData others (List.length others))]
           end
      /\ calls = (filter (fun d => negb (isDigest d)) calls ++ filter isDigest calls)%list
      /\ (List.length (filter isDigest calls) <= 1)%nat).
Proof.
  intros Hok. cbv zeta. split.
  - intros Hoff. unfold processAlertNotifications. rewrite Hoff.
    destruct admitted; reflexivity.
  - intros Hon. rewrite (notifications_when_enabled send preferences admitted email Hok Hon).
    cbv zeta. rewrite !filter_app, filter_notDigest_alerts, filter_isDigest_alerts.
    change (alertDispatch email)
      with (fun a => mkDispatch email "alert"
                       (AlertData (Alert.trackingNumber a)
                                  (Metadata.status (Alert.metadata a))
                                  (Alert.message a)
                                  (Alert.title a))).
    destruct (filter (fun a => negb (isHigh a))
                (filter (fun a => negb (suppressed preferences a)) admitted));
      cbn; rewrite ?app_nil_r; repeat split; lia.
Qed.

Lemma C9_notification_policy_witness :
  (forall d, sendNotificationEmail d = true)
  /\ processAlertNotifications sendNotificationEmail Sample.preferences
       [overdueAlert Sample.random Sample.free Sample.pendingYesterday 0%nat;
        deliveredAlert Sample.random Sample.free Sample.deliveredParcel 1%nat]
       "user@example.com"
     = [mkDispatch "user@example.com" "alert"
          (AlertData (Some "1Z999AA1234567890") "pending"
             "Amazon Order is 1 day(s) overdue" "Shipment Delayed");
        mkDispatch "user@example.com" "digest"
          (DigestData
             [deliveredAlert Sample.random Sample.free Sample.deliveredParcel 1%nat]
             1%nat)].
Proof.
  split.
  - intros d. reflexivity.
  - destruct (proj2 (C9_notification_policy sendNotificationEmail Sample.preferences
                       [overdueAlert Sample.random Sample.free Sample.pendingYesterday
                          0%nat;
                        deliveredAlert Sample.random Sample.free Sample.deliveredParcel
                          1%nat]
                       "user@example.com" (fun d => eq_refl))
                eq_refl) as (Halerts & Hdigest & Hcalls & _).
    rewrite Hcalls, Halerts, Hdigest. vm_compute. reflexivity.
Defined.

(** ** The lifecycle manager: admission and dismissal *)

Lemma sameKey_sym a b : sameKey a b = sameKey b a.
Proof.
  unfold sameKey.
  destruct (JSFacts.strictEq_spec (Alert.shipmentId a) (Alert.shipmentId b)) as [E1 | N1];
    destruct (JSFacts.strictEq_spec (Alert.shipmentId b) (Alert.shipmentId a)) as [E2 | N2];
    try congruence; simpl; [| reflexivity].
  rewrite (String.eqb_sym (Alert.type a)), (String.eqb_sym (Alert.title a)).
  reflexivity.
Qed.

(** A candidate is admitted iff no existing alert that is not dismissed
    shares its key. *)
Lemma deduplicate_In (newAlerts existing : list Alert.t) (c : Alert.t) :
  In c (deduplicateAlerts newAlerts existing)
  <-> In c newAlerts
      /\ forall e, In e existing -> Alert.dismissed e = false -> sameKey e c = false.
Proof.
  unfold deduplicateAlerts. rewrite filter_In, negb_true_iff.
  split; intros [Hin H]; split; auto.
  - intros e He Hd. destruct (sameKey e c) eqn:Hk; [| reflexivity].
    assert (Hex : existsb (fun existing0 =>
                             (sameKey existing0 c && negb (Alert.dismissed existing0))%bool)
                          existing = true).
    { apply existsb_exists. exists e. rewrite Hk, Hd. auto. }
    congruence.
  - destruct (existsb _ existing) eqn:Hex; [| reflexivity].
    apply existsb_exists in Hex. destruct Hex as (e & He & Hc).
    apply andb_true_iff in Hc. destruct Hc as [Hk Hd].
    apply negb_true_iff in Hd. rewrite (H e He Hd) in Hk. discriminate.
Qed.

(** C4 (as amended): admission makes no well-formedness check; a
    malformed candidate of the batch is admitted exactly when no existing
    alert that is not dismissed shares its (shipmentId, type, title) key,
    like any other candidate.  Once admitted it is handed to the
    notifications with the rest of the admitted batch, and it is in the
    alert set (state and storage) after the cycle exactly when the
    cleanup pass of that cycle keeps it; a candidate without shipmentId is
    kept only if a shipment of the collection lacks its shipmentId too. *)
Theorem C4_admission_ignores_shape (send : Dispatch -> bool) (preferences : Preferences)
    (env : Env) (newAlerts : list Alert.t) (shipments : list Shipment.t)
    (st : HookState) (c : Alert.t) :
  malformed c ->
  In c newAlerts ->
  let st' := admitAlerts send preferences env newAlerts shipments st in
  let unrivalled :=
    forall e, In e (alerts st) -> Alert.dismissed e = false -> sameKey e c = false in
  (In c (deduplicateAlerts newAlerts (alerts st)) <-> unrivalled)
  /\ (unrivalled ->
      (In c (alerts st') <-> keepAlert env shipments c = true)
      /\ savedAlerts st' = alerts st'
      /\ sent st'
         = (sent st
            ++ processAlertNotifications send preferences
                 (deduplicateAlerts newAlerts (alerts st)) "user@example.com")%list)
  /\ (Alert.shipmentId c = None ->
      keepAlert env shipments c = true ->
      exists s, In s shipments /\ Shipment.shipmentId s = None).
Proof.
  intros _ Hin. cbv zeta.
  assert (Hadm : In c (deduplicateAlerts newAlerts (alerts st))
                 <-> (forall e, In e (alerts st) -> Alert.dismissed e = false ->
                                sameKey e c = false)).
  { rewrite deduplicate_In. tauto. }
  split; [exact Hadm | split].
  - intros Hfree. apply Hadm in Hfree. unfold admitAlerts.
    destruct (deduplicateAlerts newAlerts (alerts st)) as [|u us] eqn:Hd;
      [destruct Hfree |].
    rewrite <- Hd in *. cbn [alerts savedAlerts sent].
    split; [| split; reflexivity].
    unfold cleanupOutdatedAlerts. rewrite filter_In. split.
    + tauto.
    + intros Hk. split; [apply in_or_app; left; exact Hfree | exact Hk].
  - intros Hnone Hk. unfold keepAlert in Hk. rewrite Hnone in Hk.
    destruct (find (fun s => JS.strictEq (Shipment.shipmentId s) None) shipments)
      as [s|] eqn:Hf; [| discriminate].
    apply find_some in Hf. destruct Hf as [Hs Heq].
    exists s. split; [exact Hs |].
    destruct (JSFacts.strictEq_spec (Shipment.shipmentId s) None); [assumption |].
    discriminate.
Qed.

Lemma C4_admission_ignores_shape_witness :
  In Malformed.candidate
     (alerts (admitAlerts sendNotificationEmail Sample.preferences Sample.free
                [Malformed.candidate] [Malformed.shipment] initialState))
  /\ exists s, In s [Malformed.shipment] /\ Shipment.shipmentId s = None.
Proof.
  destruct (C4_admission_ignores_shape sendNotificationEmail Sample.preferences
              Sample.free [Malformed.candidate] [Malformed.shipment] initialState
              Malformed.candidate (or_introl eq_refl) (or_introl eq_refl))
    as (_ & Hset & Hid).
  split.
  - apply Hset.
    + intros e [].
    + vm_compute. reflexivity.
  - apply Hid.
    + reflexivity.
    + vm_compute. reflexivity.
Defined.

(** C4 fails as stated: the candidate derived from a shipment without
    [shipmentId] and [trackingNumber] is malformed, passes admission, and
    is in the alert set (state and storage) after the cycle. *)
Lemma C4_malformed_candidate_enters_the_set :
  let st := generateAlerts Sample.random sendNotificationEmail Sample.preferences
              Sample.free [Malformed.shipment] initialState in
  Alert.shipmentId Malformed.candidate = None
  /\ Alert.trackingNumber Malformed.candidate = None
  /\ deduplicateAlerts [Malformed.candidate] [] = [Malformed.candidate]
  /\ alerts st = [Malformed.candidate]
  /\ savedAlerts st = [Malformed.candidate].
Proof. vm_compute. repeat split. Qed.

Section Dismissal.

Variable env : Env.

Lemma markDismissed_hit alertId a :
  Alert.id a = alertId ->
  Alert.dismissed (markDismissed env alertId a) = true
  /\ Alert.dismissedAt (markDismissed env alertId a) = Some (now env)
  /\ Alert.id (markDismissed env alertId a) = Alert.id a
  /\ Alert.shipmentId (markDismissed env alertId a) = Alert.shipmentId a
  /\ Alert.type (markDismissed env alertId a) = Alert.type a
  /\ Alert.title (markDismissed env alertId a) = Alert.title a.
Proof.
  intros Hid. unfold markDismissed.
  rewrite (proj2 (String.eqb_eq _ _) Hid). repeat split.
Qed.

Lemma markDismissed_miss alertId a :
  Alert.id a <> alertId -> markDismissed env alertId a = a.
Proof.
  intros Hid. unfold markDismissed.
  rewrite (proj2 (String.eqb_neq _ _) Hid). reflexivity.
Qed.

(** The alerts of the marked set that are not dismissed are those of
    the original set that were not dismissed and have another id. *)
Lemma undismissed_after_marking alertId (l : list Alert.t) (e : Alert.t) :
  In e (map (markDismissed env alertId) l) /\ Alert.dismissed e = false
  <-> In e l /\ Alert.id e <> alertId /\ Alert.dismissed e = false.
Proof.
  rewrite in_map_iff. split.
  - intros [(x & Hx & Hin) Hd]. subst e.
    destruct (String.eqb_spec (Alert.id x) alertId) as [Heq | Hne].
    + destruct (markDismissed_hit alertId x Heq) as [Hdis _]. congruence.
    + rewrite (markDismissed_miss alertId x Hne) in *. auto.
  - intros (Hin & Hne & Hd). split; [| exact Hd].
    exists e. split; [apply markDismissed_miss; exact Hne | exact Hin].
Qed.

End Dismissal.

(** C2 (as amended): after [dismissAlert(alertId)] on an alert of the
    set, the saved set holds that alert marked [dismissed = true] with
    [dismissedAt = now]; neither the state nor the visible list holds an
    alert with that id; and the dismissed alert suppresses nothing: a
    later candidate is admitted, against the state and against the saved
    set alike, exactly when no other alert that is not dismissed shares
    its key. *)
Theorem C2_dismiss_retains_but_does_not_suppress (env : Env) (alertId : string)
    (st : HookState) (a : Alert.t) :
  In a (alerts st) ->
  Alert.id a = alertId ->
  let st' := dismissAlert env alertId st in
  (exists a', In a' (savedAlerts st')
              /\ Alert.id a' = alertId
              /\ Alert.dismissed a' = true
              /\ Alert.dismissedAt a' = Some (now env)
              /\ Alert.shipmentId a' = Alert.shipmentId a
              /\ Alert.type a' = Alert.type a
              /\ Alert.title a' = Alert.title a)
  /\ (forall b, In b (alerts st') -> Alert.id b <> alertId)
  /\ (forall b, In b (visibleAlerts st') -> Alert.id b <> alertId)
  /\ (forall newAlerts c,
        In c newAlerts ->
        let free := forall e, In e (alerts st) -> Alert.id e <> alertId ->
                              Alert.dismissed e = false -> sameKey e c = false in
        (In c (deduplicateAlerts newAlerts (alerts st')) <-> free)
        /\ (In c (deduplicateAlerts newAlerts (savedAlerts st')) <-> free)).
Proof.
  intros Hin Hid. cbv zeta.
  assert (Hstate : forall b, In b (alerts (dismissAlert env alertId st)) ->
                             Alert.id b <> alertId).
  { intros b Hb. unfold dismissAlert in Hb. cbn [alerts] in Hb.
    apply filter_In in Hb. destruct Hb as [Hb Hd]. apply negb_true_iff in Hd.
    apply (undismissed_after_marking env alertId (alerts st) b). auto. }
  split; [| split; [| split]].
  - exists (markDismissed env alertId a).
    destruct (markDismissed_hit env alertId a Hid) as (H1 & H2 & H3 & H4 & H5 & H6).
    split; [apply in_map; exact Hin |]. rewrite H3. auto 10.
  - exact Hstate.
  - intros b Hb. apply filter_In in Hb. apply Hstate. tauto.
  - intros newAlerts c Hc.
    rewrite !deduplicate_In. unfold dismissAlert. cbn [alerts savedAlerts].
    split; split.
    + intros [_ H] e He Hne Hd. apply H; [| exact Hd].
      apply filter_In. split; [| rewrite Hd; reflexivity].
      apply (undismissed_after_marking env alertId (alerts st) e). auto.
    + intros H. split; [exact Hc |]. intros e He Hd.
      apply filter_In in He. destruct He as [He _].
      destruct (proj1 (undismissed_after_marking env alertId (alerts st) e)
                  (conj He Hd)) as (H1 & H2 & H3).
      apply H; assumption.
    + intros [_ H] e He Hne Hd. apply H; [| exact Hd].
      apply (undismissed_after_marking env alertId (alerts st) e). auto.
    + intros H. split; [exact Hc |]. intros e He Hd.
      destruct (proj1 (undismissed_after_marking env alertId (alerts st) e)
                  (conj He Hd)) as (H1 & H2 & H3).
      apply H; assumption.
Qed.

Lemma C2_dismiss_retains_but_does_not_suppress_witness :
  exists a', In a' (savedAlerts Dismissed.afterDismiss)
             /\ Alert.id a' = "alert_1700000000000_r0"
             /\ Alert.dismissed a' = true
             /\ Alert.dismissedAt a' = Some Sample.clock.
Proof.
  destruct (C2_dismiss_retains_but_does_not_suppress Sample.free
              "alert_1700000000000_r0" Dismissed.afterFirstCycle
              (delayedAlert Sample.random Sample.free Sample.delayedAtCustoms 0%nat)
              (or_introl eq_refl) eq_refl)
    as [(a' & Hin & Hid & Hd & Hat & _) _].
  exists a'. auto.
Defined.

(** C2 fails as stated: the dismissed alert is still in the saved set,
    the cleanup pass would keep it, and yet the next cycle over the same
    shipments admits a candidate with the same key. *)
Lemma C2_dismissed_alert_fires_again :
  exists dismissedAlert readmitted,
    savedAlerts Dismissed.afterDismiss = [dismissedAlert]
    /\ Alert.dismissed dismissedAlert = true
    /\ keepAlert Sample.free Dismissed.shipments dismissedAlert = true
    /\ alerts Dismissed.afterSecondCycle = [readmitted]
    /\ Alert.dismissed readmitted = false
    /\ sameKey dismissedAlert readmitted = true.
Proof.
  exists (markDismissed Sample.free "alert_1700000000000_r0"
            (delayedAlert Sample.random Sample.free Sample.delayedAtCustoms 0%nat)).
  exists (delayedAlert Sample.random Sample.free Sample.delayedAtCustoms 1%nat).
  split; [vm_compute; reflexivity |].
  split; [reflexivity |].
  split; [vm_compute; reflexivity |].
  split; [vm_compute; reflexivity |].
  split; [reflexivity |].
  vm_compute; reflexivity.
Qed.

(** ** The dedup invariant *)

#[local] Hint Constructors UniqueKeys : core.

Lemma UniqueKeys_filter f l : UniqueKeys l -> UniqueKeys (filter f l).
Proof.
  induction 1 as [|a l Ha Hl IH]; simpl; auto.
  destruct (f a); auto.
  constructor; auto. intros b Hb. apply filter_In in Hb. apply Ha. tauto.
Qed.

Lemma UniqueKeys_app l1 l2 :
  UniqueKeys l1 -> UniqueKeys l2 ->
  (forall a b, In a l1 -> In b l2 -> ~ clash a b) ->
  UniqueKeys (l1 ++ l2).
Proof.
  induction 1 as [|a l Ha Hl IH]; simpl; intros H2 Hcross; auto.
  constructor.
  - intros b Hb. apply in_app_or in Hb. destruct Hb as [Hb | Hb]; auto.
  - apply IH; auto.
Qed.

(** The invariant survives a cycle whose batch of candidates has itself
    no two candidates with the same key. *)
Lemma admitAlerts_keeps_keys_unique send preferences env newAlerts shipments st :
  UniqueKeys (alerts st) ->
  UniqueKeys newAlerts ->
  UniqueKeys (alerts (admitAlerts send preferences env newAlerts shipments st)).
Proof.
  intros Hst Hnew. unfold admitAlerts.
  destruct (deduplicateAlerts newAlerts (alerts st)) as [|c cs] eqn:Hd; [exact Hst |].
  cbn [alerts]. rewrite <- Hd.
  apply UniqueKeys_filter, UniqueKeys_app; auto.
  - apply UniqueKeys_filter. exact Hnew.
  - intros a b Ha Hb (Hda & Hdb & Hk).
    apply deduplicate_In in Ha. destruct Ha as [_ Ha].
    rewrite sameKey_sym, (Ha b Hb Hdb) in Hk. discriminate.
Qed.

(** The same pair of rules across two cycles: once the overdue alert is
    in the set, the carrier candidate of a later cycle, having the same
    key, is dropped by [deduplicateAlerts]. *)
Lemma carrier_candidate_dropped_across_cycles :
  let st1 := generateAlerts Sample.random sendNotificationEmail Sample.preferences
               Sample.free [Sample.lateUsps] initialState in
  let st2 := generateAlerts Sample.random sendNotificationEmail Sample.preferences
               Sample.premium [Sample.lateUsps] st1 in
  alerts st1 = [overdueAlert Sample.random Sample.free Sample.lateUsps 0%nat]
  /\ alerts st2 = alerts st1.
Proof. cbv zeta. split; vm_compute; reflexivity. Qed.

(** C1, at the input where it fails: with the premium gate on, the
    overdue rule and the carrier rule both fire for a late USPS parcel;
    the two candidates share (shipmentId, "warning", "Shipment Delayed"),
    both pass [deduplicateAlerts] and the cleanup, and the alert set
    after the cycle holds both, neither dismissed. *)
Theorem C1_duplicate_key_within_batch :
  let st := generateAlerts Sample.random sendNotificationEmail Sample.preferences
              Sample.premium [Sample.lateUsps] initialState in
  exists a b,
    alerts st = [a; b]
    /\ Alert.id a <> Alert.id b
    /\ Alert.dismissed a = false
    /\ Alert.dismissed b = false
    /\ Alert.shipmentId a = Alert.shipmentId b
    /\ Alert.type a = Alert.type b
    /\ Alert.title a = Alert.title b
    /\ ~ UniqueKeys (alerts st).
Proof.
  cbv zeta.
  exists (overdueAlert Sample.random Sample.premium Sample.lateUsps 0%nat).
  exists (carrierAlert Sample.random Sample.premium Sample.lateUsps
            "USPS packages often experience delays during peak seasons" 1%nat).
  assert (Hset : alerts (generateAlerts Sample.random sendNotificationEmail
                           Sample.preferences Sample.premium [Sample.lateUsps]
                           initialState)
                 = [overdueAlert Sample.random Sample.premium Sample.lateUsps 0%nat;
                    carrierAlert Sample.random Sample.premium Sample.lateUsps
                      "USPS packages often experience delays during peak seasons"
                      1%nat]).
  { vm_compute. reflexivity. }
  rewrite Hset.
  split; [reflexivity |].
  split; [vm_compute; discriminate |].
  do 5 (split; [reflexivity |]).
  intros H. inversion H as [|a l Ha Hl]; subst.
  apply (Ha _ (or_introl eq_refl)). repeat split.
Qed.

(** * Further properties of the rule engine *)

Lemma stamp_fields env ty msg s p x :
  Alert.type (stamp env ty msg s p x) = AlertType.type ty
  /\ Alert.priority (stamp env ty msg s p x) = AlertType.priority ty
  /\ Alert.title (stamp env ty msg s p x) = AlertType.title ty
  /\ Alert.message (stamp env ty msg s p x) = msg
  /\ Alert.shipmentId (stamp env ty msg s p x) = Shipment.shipmentId s
  /\ Alert.trackingNumber (stamp env ty msg s p x) = Shipment.trackingNumber s
  /\ Alert.dismissed (stamp env ty msg s p x) = false
  /\ Alert.timestamp (stamp env ty msg s p x) = Some (now env).
Proof. repeat split. Qed.

Lemma analyze_In_origin random env s prev n a :
  In a (fst (analyzeShipmentForAlerts random env s prev n)) -> Origin random env s prev a.
Proof.
  rewrite analyze_alerts. repeat rewrite in_app_iff. repeat rewrite in_fired.
  intros [[Hc Ha] | [[Hc Ha] | [[Hc Ha] | [[Hc Ha] | [[Hc Ha] | Hadv]]]]].
  - eapply FromOverdue; eauto.
  - eapply FromDelayed; eauto.
  - eapply FromDeliverySoon; eauto.
  - eapply FromDelivered; eauto.
  - eapply FromStuck; eauto.
  - unfold advancedFired in Hadv.
    destruct (hasPremiumFeatures env) eqn:Hp; [| destruct Hadv].
    apply in_app_iff in Hadv. rewrite in_fired in Hadv.
    destruct Hadv as [[Hc Ha] | Hcar].
    + eapply FromRouting; eauto.
    + unfold carrierFired in Hcar.
      destruct (detectCarrierIssues env s) as [text|] eqn:Hd; [| destruct Hcar].
      destruct Hcar as [Ha | []]. eapply FromCarrier; eauto.
Qed.

(** Every alert of an analysis is a [stamp] for the analysed shipment. *)
Lemma origin_stamp random env s prev a :
  Origin random env s prev a ->
  exists ty msg p x, a = stamp env ty msg s p x.
Proof. intros [k ? ->|k ? ->|k ? ->|k ? ->|k ? ->|k ? ? ->|k text ? ? ->]; repeat eexists. Qed.

Lemma delayedAlert_title random env s k :
  In (Alert.title (delayedAlert random env s k))
     ["Weather Delay"; "Customs Processing"; "Address Problem"; "Shipment Delayed"].
Proof.
  unfold delayedAlert.
  destruct (stamp_fields env (getDelayAlertType (getDelayReason s))
              (Shipment.nickname s ++ ": " ++ getDelayReason s) s None (random k))
    as (_ & _ & -> & _).
  destruct (delayAlertType_cases (getDelayReason s)) as [H | [H | [H | H]]];
    rewrite H; simpl; tauto.
Qed.

(** The title of an alert, by origin. *)
Lemma origin_title random env s prev a :
  Origin random env s prev a ->
  (Alert.title a = "Delivery Today" -> deliverySoonFires s = true)
  /\ (Alert.title a = "Package Delivered" -> deliveredFires s prev = true)
  /\ (Alert.title a = "Delivery Exception" ->
      isShipmentStuck env s = true \/ hasPremiumFeatures env = true).
Proof.
  intros [k Hc ->|k Hc ->|k Hc ->|k Hc ->|k Hc ->|k Hp Hc ->|k text Hp Hc ->];
    try (repeat split; intros Ht; try exact Hc; auto; discriminate Ht).
  pose proof (delayedAlert_title random env s k) as Hin.
  repeat split; intros Ht; rewrite Ht in Hin; simpl in Hin;
    repeat (destruct Hin as [Hin | Hin]; [discriminate Hin |]); destruct Hin.
Qed.

Lemma floor_above (d : Z) (unit : positive) (q : Z) :
  (q <? Qfloor (d # unit))%Z = true <-> (q + 1) * Z.pos unit <= d.
Proof.
  unfold Qfloor. rewrite Z.ltb_lt. split; intros H.
  - assert (q + 1 <= d / Z.pos unit) by lia.
    pose proof (Z.mul_div_le d (Z.pos unit) ltac:(lia)). nia.
  - assert (q + 1 <= d / Z.pos unit); [| lia].
    apply Z.div_le_lower_bound; lia.
Qed.



(** X2: a "Delivery Today" alert is returned exactly for a shipment whose
    status is out_for_delivery, whatever the premium gate; it is an info
    alert of priority medium. *)
Theorem delivery_today_rule (random : nat -> string) (env : Env) (s : Shipment.t)
    (prev : option string) (n : nat) :
  let result := fst (analyzeShipmentForAlerts random env s prev n) in
  ((exists a, In a result /\ Alert.title a = "Delivery Today")
   <-> Shipment.status s = "out_for_delivery")
  /\ (forall a, In a result -> Alert.title a = "Delivery Today" ->
                Alert.type a = "info" /\ Alert.priority a = "medium"
                /\ Alert.message a
                   = Shipment.nickname s ++ " is out for delivery and should arrive today").
Proof.
  cbv zeta. split.
  - split.
    + intros (a & Hin & Ht). apply analyze_In_origin in Hin.
      destruct (origin_title random env s prev a Hin) as (H & _).
      apply H in Ht. unfold deliverySoonFires in Ht. apply String.eqb_eq. exact Ht.
    + intros Hs. eexists. split.
      * rewrite analyze_alerts. unfold deliverySoonFires at 1. rewrite Hs.
        repeat rewrite in_app_iff. do 2 right. left. left. reflexivity.
      * reflexivity.
  - intros a Hin Ht. apply analyze_In_origin in Hin.
    destruct Hin as [k Hc ->|k Hc ->|k Hc ->|k Hc ->|k Hc ->|k Hp Hc ->|k text Hp Hc ->];
      try discriminate Ht; try (repeat split; fail).
    pose proof (delayedAlert_title random env s k) as Hin.
    rewrite Ht in Hin. simpl in Hin.
    repeat (destruct Hin as [Hin | Hin]; [discriminate Hin |]). destruct Hin.
Qed.

Lemma ceiling_bounds (d : Z) (unit : positive) :
  (Qceiling (d # unit) - 1) * Z.pos unit < d <= Qceiling (d # unit) * Z.pos unit.
Proof.
  unfold Qceiling, Qfloor, Qopp. cbn [Qnum Qden].
  pose proof (Z.mul_div_le (- d) (Z.pos unit) ltac:(lia)).
  pose proof (Z.mul_succ_div_gt (- d) (Z.pos unit) ltac:(lia)).
  nia.
Qed.

(** X3: whenever the overdue rule fires, the number of days in its
    message is at least 1, and it is the number of started days: the
    delay is more than [days - 1] and at most [days] whole days. *)
Theorem overdue_days_positive (env : Env) (s : Shipment.t) (est : Z) :
  Shipment.estimatedDelivery s = Some est ->
  overdueFires env s = true ->
  1 <= getDaysOverdue env est
  /\ (getDaysOverdue env est - 1) * 86400000 < now env - est
     <= getDaysOverdue env est * 86400000.
Proof.
  intros Hest Hf. unfold overdueFires in Hf. rewrite Hest in Hf.
  apply andb_true_iff in Hf. destruct Hf as [Hpast _]. apply Z.ltb_lt in Hpast.
  unfold getDaysOverdue. cbv zeta.
  pose proof (ceiling_bounds (now env - est) msPerDay) as Hb.
  change (Z.pos msPerDay) with 86400000 in Hb.
  split; [nia | exact Hb].
Qed.

Lemma overdue_days_positive_witness :
  1 <= getDaysOverdue Sample.free (Sample.clock - 86400000).
Proof.
  apply (overdue_days_positive Sample.free Sample.pendingYesterday
           (Sample.clock - 86400000)); reflexivity.
Defined.

Lemma existsb_strictEq_In (x : option string) (l : list (option string)) :
  existsb (JS.strictEq x) l = true <-> In x l.
Proof.
  rewrite existsb_exists. split.
  - intros (y & Hin & Heq). destruct (JSFacts.strictEq_spec x y); congruence.
  - intros Hin. exists x. split; [exact Hin | apply JSFacts.strictEq_refl].
Qed.

Lemma option_string_dec (a b : option string) : {a = b} + {a <> b}.
Proof. decide equality. apply string_dec. Qed.

(** [new Set(xs).size] counts the distinct elements. *)
Lemma setSize_nodup (xs : list (option string)) :
  JS.setSize xs = List.length (nodup option_string_dec xs).
Proof.
  induction xs as [|x xs IH]; simpl; [reflexivity |].
  destruct (in_dec option_string_dec x xs) as [Hin | Hnin].
  - rewrite (proj2 (existsb_strictEq_In x xs) Hin). exact IH.
  - destruct (existsb (JS.strictEq x) xs) eqn:He.
    + apply existsb_strictEq_In in He. contradiction.
    + simpl. rewrite IH. reflexivity.
Qed.

Lemma setSize_bounds (xs : list (option string)) :
  (JS.setSize xs <= List.length xs)%nat
  /\ (xs <> [] -> 1 <= JS.setSize xs)%nat.
Proof.
  induction xs as [|x xs [IH1 IH2]]; simpl.
  - split; [lia | congruence].
  - destruct (existsb (JS.strictEq x) xs) eqn:He; split; try lia.
    intros _. apply IH2. intros ->. discriminate He.
Qed.

(** X4: routing is unusual exactly when the history has at least two
    more entries than distinct locations (an absent location counting as
    one location); the test on a history shorter than 3 never decides,
    and a history whose locations are pairwise distinct is never
    unusual. *)
Theorem unusual_routing_iff (s : Shipment.t) :
  let locations := map HistoricalStatus.location (Shipment.historicalStatuses s) in
  (hasUnusualRouting s = true
   <-> (List.length (nodup option_string_dec locations) + 2
        <= List.length (Shipment.historicalStatuses s))%nat)
  /\ (NoDup locations -> hasUnusualRouting s = false).
Proof.
  cbv zeta.
  assert (Hiff : hasUnusualRouting s = true
                 <-> (List.length (nodup option_string_dec
                                     (map HistoricalStatus.location
                                        (Shipment.historicalStatuses s))) + 2
                      <= List.length (Shipment.historicalStatuses s))%nat).
  { unfold hasUnusualRouting. rewrite setSize_nodup, length_map.
    pose proof (setSize_bounds (map HistoricalStatus.location
                                  (Shipment.historicalStatuses s))) as [_ Hne].
    rewrite setSize_nodup in Hne.
    destruct (Nat.ltb_spec (List.length (Shipment.historicalStatuses s)) 3) as [Hlt | Hge].
    - split; [discriminate |]. intros H.
      destruct (Shipment.historicalStatuses s) as [|h hs] eqn:Hh; [simpl in H; lia |].
      assert (map HistoricalStatus.location (h :: hs) <> []) by (simpl; congruence).
      apply Hne in H0. cbn [List.length] in Hlt, H. lia.
    - rewrite Nat.ltb_lt. lia. }
  split; [exact Hiff |].
  intros Hnd. destruct (hasUnusualRouting s) eqn:Hu; [| reflexivity].
  pose proof (proj1 Hiff eq_refl) as Hx.
  rewrite (nodup_fixed_point option_string_dec Hnd), length_map in Hx.
  lia.
Qed.

Lemma unusual_routing_iff_witness :
  hasUnusualRouting Sample.delayedAtCustoms = false.
Proof.
  apply (unusual_routing_iff Sample.delayedAtCustoms).
  repeat constructor; simpl; intuition discriminate.
Defined.

(** X5: the carrier heuristic speaks only of USPS and FedEx shipments:
    for USPS when the last update is at least 73 full hours old, whatever
    the status; for FedEx in transit when the first history entry has a
    timestamp at least 6 full days old.  Any other carrier, or none,
    gives no finding. *)
Theorem carrier_issue_iff (env : Env) (s : Shipment.t) (text : string) :
  detectCarrierIssues env s = Some text
  <-> (Shipment.carrier s = Some "usps"
       /\ 73 * 3600000 <= now env - Shipment.lastUpdated s
       /\ text = "USPS packages often experience delays during peak seasons")
      \/ (Shipment.carrier s = Some "fedex"
          /\ Shipment.status s = "in_transit"
          /\ (exists h rest first,
                Shipment.historicalStatuses s = h :: rest
                /\ HistoricalStatus.timestamp h = Some first
                /\ 6 * 86400000 <= now env - first)
          /\ text = "FedEx shipment has been in transit longer than typical").
Proof.
  unfold detectCarrierIssues, getHoursSinceUpdate.
  pose proof (floor_above (now env - Shipment.lastUpdated s) msPerHour 72) as Hu.
  change ((72 + 1) * Z.pos msPerHour) with (73 * 3600000) in Hu.
  destruct (JSFacts.strictEq_spec (Shipment.carrier s) (Some "usps")) as [Husps | Hnusps].
  - destruct (72 <? Qfloor ((now env - Shipment.lastUpdated s) # msPerHour))%Z eqn:H72;
      cbn [andb].
    + split.
      * intros H. injection H as <-. left. repeat split; [exact Husps | apply Hu; reflexivity].
      * intros [(_ & _ & ->) | (Hf & _)]; [reflexivity | congruence].
    + assert (Hfed : JS.strictEq (Shipment.carrier s) (Some "fedex") = false).
      { rewrite Husps. reflexivity. }
      rewrite Hfed. cbn [andb]. split; [discriminate |].
      intros [(_ & H & _) | (Hf & _)]; [| congruence].
      apply Hu in H. congruence.
  - cbn [andb].
    destruct (JSFacts.strictEq_spec (Shipment.carrier s) (Some "fedex")) as [Hfed | Hnfed];
      cbn [andb].
    + destruct (String.eqb_spec (Shipment.status s) "in_transit") as [Hst | Hst].
      * destruct (Shipment.historicalStatuses s) as [|h rest] eqn:Hh; cbn [nth_error].
        { split; [discriminate |].
          intros [(Hc & _) | (_ & _ & (h & r & f & Heq & _) & _)]; congruence. }
        destruct h as [hst [first|] hloc].
        -- pose proof (floor_above (now env - first) msPerDay 5) as Hd.
           change ((5 + 1) * Z.pos msPerDay) with (6 * 86400000) in Hd.
           destruct (5 <? Qfloor ((now env - first) # msPerDay))%Z eqn:H5; split.
           ++ intros H. injection H as <-. right. repeat split; auto.
              exists (HistoricalStatus.mk hst (Some first) hloc), rest, first.
              repeat split. apply Hd. reflexivity.
           ++ intros [(Hc & _) | (_ & _ & _ & ->)]; [congruence | reflexivity].
           ++ discriminate.
           ++ intros [(Hc & _) | (_ & _ & (h & r & f & Heq & Hts & Hage) & _)];
                [congruence |].
              injection Heq as <- <-. cbn in Hts. injection Hts as <-.
              apply Hd in Hage. congruence.
        -- split; [discriminate |].
           intros [(Hc & _) | (_ & _ & (h & r & f & Heq & Hts & _) & _)]; [congruence |].
           injection Heq as <- <-. discriminate Hts.
      * split; [discriminate |].
        intros [(Hc & _) | (_ & Hs & _)]; congruence.
    + split; [discriminate |].
      intros [(Hc & _) | (Hc & _)]; congruence.
Qed.

Lemma firingRules_at_most_two env s prev : (firingRules env s prev <= 2)%nat.
Proof.
  unfold firingRules, overdueFires, delayedFires, deliverySoonFires, deliveredFires,
    isShipmentStuck.
  destruct (Shipment.estimatedDelivery s) as [est|];
    [destruct (est <? now env)%Z |];
    destruct (48 <? getHoursSinceUpdate env s)%Z;
    destruct (JS.strictEq prev (Some "delivered"));
    status_cases s; try congruence; cbn; lia.
Qed.

Lemma analyze_length random env s prev n :
  List.length (fst (analyzeShipmentForAlerts random env s prev n))
  = (firingRules env s prev
     + List.length (advancedFired random env s (drawsOfRules env s prev n)))%nat.
Proof.
  rewrite analyze_alerts. repeat rewrite length_app. repeat rewrite length_fired.
  unfold firingRules.
  destruct (overdueFires env s), (delayedFires s), (deliverySoonFires s),
    (deliveredFires s prev), (isShipmentStuck env s); cbn; lia.
Qed.

(** X6: one analysis returns at most four candidates, the two premium
    rules adding at most one each to the at most two of the other rules;
    and it returns none for a shipment that no rule concerns: no
    delivery estimate, a status outside the ones the rules name, and the
    premium gate off. *)
Theorem at_most_four_candidates (random : nat -> string) (env : Env) (s : Shipment.t)
    (prev : option string) (n : nat) :
  let result := fst (analyzeShipmentForAlerts random env s prev n) in
  (List.length result <= 4)%nat
  /\ (hasPremiumFeatures env = false ->
      Shipment.estimatedDelivery s = None ->
      ~ In (Shipment.status s)
           ["delayed"; "out_for_delivery"; "delivered"; "in_transit"; "pending"] ->
      result = []).
Proof.
  cbv zeta. split.
  - rewrite analyze_length. pose proof (firingRules_at_most_two env s prev).
    unfold advancedFired. destruct (hasPremiumFeatures env); [| simpl; lia].
    rewrite length_app, length_fired, length_carrierFired.
    destruct (hasUnusualRouting s), (detectCarrierIssues env s); lia.
  - intros Hfree Hest Hst.
    apply length_zero_iff_nil. rewrite analyze_length.
    unfold advancedFired, firingRules, overdueFires, delayedFires, deliverySoonFires,
      deliveredFires, isShipmentStuck.
    rewrite Hfree, Hest. simpl in Hst.
    status_cases s; try (exfalso; intuition congruence).
    cbn. rewrite ?andb_false_r. reflexivity.
Qed.

Lemma at_most_four_candidates_witness :
  fst (analyzeShipmentForAlerts Sample.random Sample.free
         (Shipment.mk (Some "6") None None "Lamp" "exception" None Sample.clock [])
         None 0%nat) = [].
Proof.
  apply (at_most_four_candidates Sample.random Sample.free
           (Shipment.mk (Some "6") None None "Lamp" "exception" None Sample.clock [])
           None 0%nat).
  - reflexivity.
  - reflexivity.
  - simpl. intuition discriminate.
Defined.

(** * The batch of one cycle *)

Section Batch.

Variable random : nat -> string.
Variable env : Env.

Lemma collectAlerts_cons previous s rest n :
  collectAlerts random env previous (s :: rest) n
  = let here := analyzeShipmentForAlerts random env s (previousStatusOf previous s) n in
    let there := collectAlerts random env previous rest (snd here) in
    ((fst here ++ fst there)%list, snd there).
Proof.
  cbn [collectAlerts]. rewrite !bind_run. reflexivity.
Qed.

(** Each candidate of the batch comes from the analysis of a shipment of
    the collection, made with the status that shipment had before. *)
Lemma collectAlerts_In previous shipments n a :
  In a (fst (collectAlerts random env previous shipments n)) ->
  exists s, In s shipments
            /\ Origin random env s (previousStatusOf previous s) a.
Proof.
  revert n. induction shipments as [|s rest IH]; intros n Hin.
  - destruct Hin.
  - rewrite collectAlerts_cons in Hin. cbv zeta in Hin. cbn [fst] in Hin.
    apply in_app_iff in Hin. destruct Hin as [Hin | Hin].
    + exists s. split; [left; reflexivity | eapply analyze_In_origin; eauto].
    + destruct (IH _ Hin) as (s' & Hs' & Ho). exists s'. split; [right |]; assumption.
Qed.

Lemma analyze_ids s prev n :
  map Alert.id (fst (analyzeShipmentForAlerts random env s prev n))
  = map (fun k => "alert_" ++ JS.showZ (now env) ++ "_" ++ random k)
        (seq n (List.length (fst (analyzeShipmentForAlerts random env s prev n)))).
Proof.
  rewrite analyze_alerts. unfold advancedFired, drawsOfRules, carrierFired.
  destruct (overdueFires env s), (delayedFires s), (deliverySoonFires s),
    (deliveredFires s prev), (isShipmentStuck env s), (hasPremiumFeatures env),
    (hasUnusualRouting s), (detectCarrierIssues env s); reflexivity.
Qed.

Lemma collectAlerts_draws previous shipments n :
  snd (collectAlerts random env previous shipments n)
  = (n + List.length (fst (collectAlerts random env previous shipments n)))%nat.
Proof.
  revert n. induction shipments as [|s rest IH]; intros n.
  - simpl. lia.
  - rewrite collectAlerts_cons. cbv zeta. cbn [fst snd].
    rewrite IH, length_app, analyze_draws. lia.
Qed.

Lemma collectAlerts_ids previous shipments n :
  map Alert.id (fst (collectAlerts random env previous shipments n))
  = map (fun k => "alert_" ++ JS.showZ (now env) ++ "_" ++ random k)
        (seq n (List.length (fst (collectAlerts random env previous shipments n)))).
Proof.
  revert n. induction shipments as [|s rest IH]; intros n.
  - reflexivity.
  - rewrite collectAlerts_cons. cbv zeta. cbn [fst snd].
    rewrite map_app, length_app, seq_app, map_app, analyze_ids, IH, analyze_draws.
    reflexivity.
Qed.

End Batch.

(** X7: every candidate of a cycle's batch points at a shipment of the
    collection it was derived from: it carries that shipment's
    [shipmentId] and [trackingNumber], its carrier and status in the
    metadata, the current time as timestamp, and it is not dismissed. *)
Theorem batch_candidates_refer_to_live_shipments (random : nat -> string) (env : Env)
    (previous shipments : list Shipment.t) (n : nat) (a : Alert.t) :
  In a (fst (collectAlerts random env previous shipments n)) ->
  exists s, In s shipments
            /\ Alert.shipmentId a = Shipment.shipmentId s
            /\ Alert.trackingNumber a = Shipment.trackingNumber s
            /\ Metadata.carrier (Alert.metadata a) = Shipment.carrier s
            /\ Metadata.status (Alert.metadata a) = Shipment.status s
            /\ Alert.timestamp a = Some (now env)
            /\ Alert.dismissed a = false.
Proof.
  intros Hin. apply collectAlerts_In in Hin. destruct Hin as (s & Hs & Ho).
  exists s. split; [exact Hs |].
  apply origin_stamp in Ho. destruct Ho as (ty & msg & p & x & ->).
  repeat split.
Qed.

Lemma batch_candidates_refer_to_live_shipments_witness :
  exists s, In s [Sample.pendingYesterday]
            /\ Alert.shipmentId
                 (overdueAlert Sample.random Sample.free Sample.pendingYesterday 0%nat)
               = Shipment.shipmentId s.
Proof.
  destruct (batch_candidates_refer_to_live_shipments Sample.random Sample.free []
              [Sample.pendingYesterday] 0%nat
              (overdueAlert Sample.random Sample.free Sample.pendingYesterday 0%nat)
              (or_introl eq_refl)) as (s & Hs & Hid & _).
  exists s. auto.
Defined.

(** X8: a batch makes one random draw per candidate, in order: the i-th
    candidate of the batch has the id built from the (n+i)-th draw, the
    draw counter ends at [n] plus the size of the batch, and the ids of
    the whole batch are pairwise distinct whenever those draws are. *)
Theorem batch_ids (random : nat -> string) (env : Env)
    (previous shipments : list Shipment.t) (n : nat) :
  let batch := fst (collectAlerts random env previous shipments n) in
  snd (collectAlerts random env previous shipments n) = (n + List.length batch)%nat
  /\ map Alert.id batch
     = map (fun k => "alert_" ++ JS.showZ (now env) ++ "_" ++ random k)
           (seq n (List.length batch))
  /\ (NoDup (map random (seq n (List.length batch))) -> NoDup (map Alert.id batch)).
Proof.
  cbv zeta. split; [apply collectAlerts_draws | split; [apply collectAlerts_ids |]].
  intros Hnd. rewrite collectAlerts_ids.
  rewrite <- (map_map random (fun r => "alert_" ++ JS.showZ (now env) ++ "_" ++ r)).
  apply Injective_map_NoDup; [| exact Hnd].
  intros a b Hab. apply append_inj_l in Hab. apply append_inj_l in Hab.
  apply (append_inj_l "_") in Hab. exact Hab.
Qed.

Lemma batch_ids_witness :
  NoDup (map Alert.id
           (fst (collectAlerts Sample.random Sample.free []
                   [Sample.pendingYesterday; Sample.delayedAtCustoms] 0%nat))).
Proof.
  apply (batch_ids Sample.random Sample.free []
           [Sample.pendingYesterday; Sample.delayedAtCustoms] 0%nat).
  vm_compute. repeat constructor; simpl; intuition discriminate.
Defined.

(** * Further properties of the cleanup pass *)

Lemma age_rule (env : Env) (created : Z) :
  negb (Qle_bool ((now env - created) # msPerDay) 7) = true
  <-> 7 * 86400000 < now env - created.
Proof.
  rewrite negb_true_iff. unfold Qle_bool. cbn [Qnum Qden].
  rewrite Z.leb_gt. change (7 * Z.pos msPerDay) with (7 * 86400000). lia.
Qed.

(** What [keepAlert] requires of an alert it keeps. *)
Lemma keepAlert_true env shipments a :
  keepAlert env shipments a = true ->
  exists s,
    find (fun s => JS.strictEq (Shipment.shipmentId s) (Alert.shipmentId a)) shipments
    = Some s
    /\ (Alert.title a = "Delivery Today" -> Shipment.status s = "out_for_delivery")
    /\ (Alert.type a = "warning" -> Shipment.status s <> "delivered")
    /\ (forall created, Alert.timestamp a = Some created ->
                        now env - created <= 7 * 86400000).
Proof.
  unfold keepAlert.
  destruct (find _ shipments) as [s|]; [| discriminate].
  intros Hk. exists s. split; [reflexivity |].
  destruct (String.eqb_spec (Alert.title a) "Delivery Today") as [Ht | Ht];
    destruct (String.eqb_spec (Shipment.status s) "out_for_delivery") as [Ho | Ho];
    cbn [andb negb] in Hk; try discriminate Hk;
    destruct (String.eqb_spec (Alert.type a) "warning") as [Hw | Hw];
    destruct (String.eqb_spec (Shipment.status s) "delivered") as [Hd | Hd];
    cbn [andb] in Hk; try discriminate Hk;
    (split; [intros; congruence |]); (split; [intros; congruence |]);
    intros created Hc; rewrite Hc in Hk;
    destruct (negb (Qle_bool ((now env - created) # msPerDay) 7)) eqn:Hage;
    try discriminate Hk;
    destruct (Z_lt_le_dec (7 * 86400000) (now env - created)) as [Hlt | Hle];
    try exact Hle; apply age_rule in Hlt; congruence.
Qed.

(** X9: an alert created more than 7 days before the clock is removed by
    the cleanup, whatever its type, its dismissal and the status of its
    shipment. *)
Theorem cleanup_removes_stale_alerts (env : Env) (S : list Alert.t)
    (shipments : list Shipment.t) (a : Alert.t) (created : Z) :
  Alert.timestamp a = Some created ->
  7 * 86400000 < now env - created ->
  ~ In a (cleanupOutdatedAlerts env S shipments).
Proof.
  intros Hc Hold Hin. apply filter_In in Hin. destruct Hin as [_ Hk].
  apply keepAlert_true in Hk. destruct Hk as (s & _ & _ & _ & Hage).
  specialize (Hage created Hc). lia.
Qed.

Lemma cleanup_removes_stale_alerts_witness :
  ~ In (stamp (mkEnv (Sample.clock - 8 * 86400000) false) ALERT_TYPES.DELIVERED
          "Books has been successfully delivered" Sample.deliveredParcel None "r0")
       (cleanupOutdatedAlerts Sample.free
          [stamp (mkEnv (Sample.clock - 8 * 86400000) false) ALERT_TYPES.DELIVERED
             "Books has been successfully delivered" Sample.deliveredParcel None "r0"]
          [Sample.deliveredParcel]).
Proof.
  apply (cleanup_removes_stale_alerts Sample.free _ _ _ (Sample.clock - 8 * 86400000)).
  - reflexivity.
  - vm_compute. reflexivity.
Defined.

(** An alert kept by the cleanup, and the shipment it was kept for. *)
Lemma cleanup_kept (env : Env) (S : list Alert.t)
    (shipments : list Shipment.t) (a : Alert.t) :
  In a (cleanupOutdatedAlerts env S shipments) ->
  In a S
  /\ exists s,
       In s shipments
       /\ Shipment.shipmentId s = Alert.shipmentId a
       /\ (Alert.title a = "Delivery Today" -> Shipment.status s = "out_for_delivery")
       /\ (Alert.type a = "warning" -> Shipment.status s <> "delivered")
       /\ (forall created, Alert.timestamp a = Some created ->
                           now env - created <= 7 * 86400000).
Proof.
  intros Hin. apply filter_In in Hin. destruct Hin as [Hin Hk].
  split; [exact Hin |].
  apply keepAlert_true in Hk. destruct Hk as (s & Hf & H1 & H2 & H3).
  exists s. apply find_some in Hf. destruct Hf as [Hs Heq].
  destruct (JSFacts.strictEq_spec (Shipment.shipmentId s) (Alert.shipmentId a));
    [| discriminate].
  auto.
Qed.

(** X10: every alert that survives the cleanup was in the set, and the
    first shipment of the collection with its [shipmentId] exists, is out
    for delivery if the alert is a "Delivery Today" one, is not delivered
    if the alert is a warning, and the alert is at most 7 days old. *)
Theorem cleanup_survivors (env : Env) (S : list Alert.t)
    (shipments : list Shipment.t) (a : Alert.t) :
  In a (cleanupOutdatedAlerts env S shipments) ->
  In a S
  /\ exists s,
       In s shipments
       /\ Shipment.shipmentId s = Alert.shipmentId a
       /\ (Alert.title a = "Delivery Today" -> Shipment.status s = "out_for_delivery")
       /\ (Alert.type a = "warning" -> Shipment.status s <> "delivered")
       /\ (forall created, Alert.timestamp a = Some created ->
                           now env - created <= 7 * 86400000).
Proof. apply cleanup_kept. Qed.

Lemma cleanup_survivors_witness :
  In (overdueAlert Sample.random Sample.free Sample.pendingYesterday 0%nat)
     [overdueAlert Sample.random Sample.free Sample.pendingYesterday 0%nat].
Proof.
  apply (cleanup_survivors Sample.free _ [Sample.pendingYesterday]).
  vm_compute. left. reflexivity.
Defined.

(** X11: the alerts of a shipment that is no longer in the collection
    are all removed by the cleanup; with an empty collection nothing
    survives. *)
Theorem cleanup_removes_alerts_of_deleted_shipments (env : Env) (S : list Alert.t)
    (shipments : list Shipment.t) :
  (forall a, (forall s, In s shipments -> Shipment.shipmentId s <> Alert.shipmentId a) ->
             ~ In a (cleanupOutdatedAlerts env S shipments))
  /\ cleanupOutdatedAlerts env S [] = [].
Proof.
  split.
  - intros a Hgone Hin. apply cleanup_kept in Hin.
    destruct Hin as (_ & s & Hs & Hid & _). exact (Hgone s Hs Hid).
  - unfold cleanupOutdatedAlerts. induction S as [|a S IH]; simpl; auto.
Qed.

Lemma cleanup_removes_alerts_of_deleted_shipments_witness :
  ~ In (overdueAlert Sample.random Sample.free Sample.pendingYesterday 0%nat)
       (cleanupOutdatedAlerts Sample.free
          [overdueAlert Sample.random Sample.free Sample.pendingYesterday 0%nat]
          [Sample.deliveredParcel]).
Proof.
  apply (cleanup_removes_alerts_of_deleted_shipments Sample.free).
  intros s [<- | []]. discriminate.
Defined.

Lemma find_by_unique_id (shipments : list Shipment.t) (s : Shipment.t) :
  NoDup (map Shipment.shipmentId shipments) ->
  In s shipments ->
  find (fun x => JS.strictEq (Shipment.shipmentId x) (Shipment.shipmentId s)) shipments
  = Some s.
Proof.
  induction shipments as [|x rest IH]; intros Hnd Hin; [destruct Hin |].
  cbn [map] in Hnd. inversion Hnd as [|i l Hnotin Hnd']; subst.
  cbn [find]. destruct Hin as [-> | Hin].
  - rewrite JSFacts.strictEq_refl. reflexivity.
  - destruct (JSFacts.strictEq_spec (Shipment.shipmentId x) (Shipment.shipmentId s))
      as [Heq | Hne].
    + exfalso. apply Hnotin. rewrite Heq. apply in_map. exact Hin.
    + apply IH; assumption.
Qed.

(** The type of an alert, by origin, when the premium gate is off. *)
Lemma origin_warning random env s prev a :
  hasPremiumFeatures env = false ->
  Origin random env s prev a ->
  Alert.type a = "warning" ->
  Shipment.status s <> "delivered".
Proof.
  intros Hfree [k Hc ->|k Hc ->|k Hc ->|k Hc ->|k Hc ->|k Hp Hc ->|k text Hp Hc ->] Hw;
    try congruence; try discriminate Hw.
  - unfold overdueFires in Hc.
    destruct (Shipment.estimatedDelivery s); [| discriminate].
    destruct (String.eqb_spec (Shipment.status s) "delivered"); [| assumption].
    rewrite andb_false_r in Hc. discriminate.
  - unfold delayedFires in Hc. apply String.eqb_eq in Hc. rewrite Hc. discriminate.
Qed.

(** A candidate derived, with the premium gate off, from a shipment of a
    collection with pairwise distinct ids passes the cleanup filter. *)
Lemma fresh_candidate_kept random env shipments s prev a :
  hasPremiumFeatures env = false ->
  NoDup (map Shipment.shipmentId shipments) ->
  In s shipments ->
  Origin random env s prev a ->
  keepAlert env shipments a = true.
Proof.
  intros Hfree Hnd Hs Ho.
  pose proof (origin_title random env s _ a Ho) as (Htoday & _).
  pose proof (origin_warning random env s _ a Hfree Ho) as Hwarn.
  destruct (origin_stamp random env s _ a Ho) as (ty & msg & p & x & Ha).
  unfold keepAlert.
  replace (Alert.shipmentId a) with (Shipment.shipmentId s) by (rewrite Ha; reflexivity).
  rewrite (find_by_unique_id shipments s Hnd Hs).
  destruct (String.eqb_spec (Alert.title a) "Delivery Today") as [Ht | Ht].
  - apply Htoday in Ht. unfold deliverySoonFires in Ht. rewrite Ht. cbn [negb andb].
    apply String.eqb_eq in Ht.
    destruct (String.eqb_spec (Shipment.status s) "delivered") as [Hd | Hd];
      [rewrite Hd in Ht; discriminate Ht |].
    rewrite andb_false_r. rewrite Ha. cbn [Alert.timestamp stamp fst createAlert bind
      randomSuffix ret]. rewrite Z.sub_diag. reflexivity.
  - cbn [andb].
    destruct (String.eqb_spec (Alert.type a) "warning") as [Hw | Hw].
    + apply Hwarn in Hw. apply String.eqb_neq in Hw. rewrite Hw. cbn [andb].
      rewrite Ha. cbn [Alert.timestamp stamp fst createAlert bind randomSuffix ret].
      rewrite Z.sub_diag. reflexivity.
    + cbn [andb]. rewrite Ha.
      cbn [Alert.timestamp stamp fst createAlert bind randomSuffix ret].
      rewrite Z.sub_diag. reflexivity.
Qed.

(** X12: with the premium gate off and pairwise distinct shipment ids,
    the cleanup of the same cycle removes no candidate of the batch:
    every rule's candidate is consistent with the status it was derived
    from, and it is fresh. *)
Theorem cleanup_keeps_fresh_candidates (random : nat -> string) (env : Env)
    (previous shipments : list Shipment.t) (n : nat) :
  hasPremiumFeatures env = false ->
  NoDup (map Shipment.shipmentId shipments) ->
  let batch := fst (collectAlerts random env previous shipments n) in
  cleanupOutdatedAlerts env batch shipments = batch.
Proof.
  intros Hfree Hnd. cbv zeta. unfold cleanupOutdatedAlerts.
  apply forallb_filter_id. apply forallb_forall. intros a Hin.
  apply collectAlerts_In in Hin. destruct Hin as (s & Hs & Ho).
  exact (fresh_candidate_kept random env shipments s _ a Hfree Hnd Hs Ho).
Qed.

Lemma cleanup_keeps_fresh_candidates_witness :
  cleanupOutdatedAlerts Sample.free
    (fst (collectAlerts Sample.random Sample.free []
            [Sample.pendingYesterday; Sample.delayedAtCustoms] 0%nat))
    [Sample.pendingYesterday; Sample.delayedAtCustoms]
  = fst (collectAlerts Sample.random Sample.free []
           [Sample.pendingYesterday; Sample.delayedAtCustoms] 0%nat).
Proof.
  apply (cleanup_keeps_fresh_candidates Sample.random Sample.free []
           [Sample.pendingYesterday; Sample.delayedAtCustoms] 0%nat).
  - reflexivity.
  - repeat constructor; simpl; intuition discriminate.
Defined.

(** * Admission over consecutive cycles *)

Lemma sameKey_iff a b : sameKey a b = true <-> keyOf a = keyOf b.
Proof.
  unfold sameKey, keyOf. rewrite !andb_true_iff, !String.eqb_eq.
  destruct (JSFacts.strictEq_spec (Alert.shipmentId a) (Alert.shipmentId b));
    split; intros H.
  - destruct H as [[_ H1] H2]. congruence.
  - injection H as _ H1 H2. auto.
  - destruct H as [[H _] _]. discriminate.
  - injection H as H _ _. contradiction.
Qed.

Lemma sameKey_refl a : sameKey a a = true.
Proof. apply sameKey_iff. reflexivity. Qed.

Lemma sameKey_trans a b c : sameKey a b = true -> sameKey b c = true -> sameKey a c = true.
Proof. rewrite !sameKey_iff. congruence. Qed.

(** A rejected candidate has a live rival in the existing set. *)
Lemma deduplicate_rejected newAlerts existing c :
  In c newAlerts ->
  ~ In c (deduplicateAlerts newAlerts existing) ->
  exists e, In e existing /\ Alert.dismissed e = false /\ sameKey e c = true.
Proof.
  intros Hin Hout. unfold deduplicateAlerts in Hout. rewrite filter_In in Hout.
  destruct (existsb (fun e => (sameKey e c && negb (Alert.dismissed e))%bool) existing)
    eqn:Hex.
  - apply existsb_exists in Hex. destruct Hex as (e & He & Hc).
    apply andb_true_iff in Hc. destruct Hc as [Hk Hd]. apply negb_true_iff in Hd.
    exists e. auto.
  - exfalso. apply Hout. split; [exact Hin | reflexivity].
Qed.

Lemma deduplicate_all_rejected newAlerts existing :
  (forall c, In c newAlerts ->
             exists e, In e existing /\ Alert.dismissed e = false /\ sameKey e c = true) ->
  deduplicateAlerts newAlerts existing = [].
Proof.
  intros H. destruct (deduplicateAlerts newAlerts existing) as [|c cs] eqn:Hd;
    [reflexivity |].
  assert (Hc : In c (deduplicateAlerts newAlerts existing)) by (rewrite Hd; left; auto).
  apply deduplicate_In in Hc. destruct Hc as [Hin Hfree].
  destruct (H c Hin) as (e & He & Hdis & Hk).
  rewrite (Hfree e He Hdis) in Hk. discriminate.
Qed.

(** X13: against an empty set every candidate is admitted, duplicates
    included; and once a batch of undismissed candidates has been merged
    into the set, ingesting the same batch again admits nothing. *)
Theorem reingest_admits_nothing (newAlerts existing : list Alert.t) :
  deduplicateAlerts newAlerts [] = newAlerts
  /\ (Forall (fun c => Alert.dismissed c = false) newAlerts ->
      deduplicateAlerts newAlerts (deduplicateAlerts newAlerts existing ++ existing) = []).
Proof.
  split.
  - unfold deduplicateAlerts. apply forallb_filter_id. apply forallb_forall.
    intros c _. reflexivity.
  - intros Hund. apply deduplicate_all_rejected. intros c Hc.
    destruct (existsb (fun e => (sameKey e c && negb (Alert.dismissed e))%bool) existing)
      eqn:Hex.
    + apply existsb_exists in Hex. destruct Hex as (e & He & Hk).
      apply andb_true_iff in Hk. destruct Hk as [Hk Hd]. apply negb_true_iff in Hd.
      exists e. split; [apply in_or_app; right; exact He | auto].
    + exists c. split.
      * apply in_or_app. left. unfold deduplicateAlerts. apply filter_In.
        split; [exact Hc | rewrite Hex; reflexivity].
      * split; [exact (proj1 (Forall_forall _ _) Hund c Hc) | apply sameKey_refl].
Qed.

Lemma reingest_admits_nothing_witness :
  deduplicateAlerts
    (fst (collectAlerts Sample.random Sample.free [] [Sample.pendingYesterday] 0%nat))
    (deduplicateAlerts
       (fst (collectAlerts Sample.random Sample.free [] [Sample.pendingYesterday] 0%nat))
       []
     ++ [])%list = [].
Proof.
  apply (reingest_admits_nothing
           (fst (collectAlerts Sample.random Sample.free [] [Sample.pendingYesterday]
                   0%nat)) []).
  repeat constructor.
Defined.

Lemma sameKey_stamp env env' ty msg msg' s p p' x x' :
  sameKey (stamp env ty msg s p x) (stamp env' ty msg' s p' x') = true.
Proof. apply sameKey_iff. reflexivity. Qed.

Lemma filter_fixed_forall {A : Type} (f : A -> bool) (l : list A) :
  filter f l = l -> forall x, In x l -> f x = true.
Proof.
  intros Hfix x Hin. rewrite <- Hfix in Hin. apply filter_In in Hin. tauto.
Qed.

Section Cycles.

Variable random : nat -> string.
Variable send : Dispatch -> bool.
Variable preferences : Preferences.
Variable env : Env.

(** An alert of one analysis has a rival of the same key in any other
    analysis of the same shipment whose delivered rule fires when this
    one's does. *)
Lemma analyze_has_key s p1 p2 c2 n :
  Origin random env s p2 c2 ->
  (deliveredFires s p2 = true -> deliveredFires s p1 = true) ->
  exists c1, In c1 (fst (analyzeShipmentForAlerts random env s p1 n))
             /\ Alert.dismissed c1 = false
             /\ sameKey c1 c2 = true.
Proof.
  intros Ho Hdel. rewrite analyze_alerts. unfold advancedFired, carrierFired.
  destruct Ho as [k Hc ->|k Hc ->|k Hc ->|k Hc ->|k Hc ->|k Hp Hc ->|k text Hp Hc ->];
    try (apply Hdel in Hc); try rewrite Hp; rewrite Hc;
    eexists; (split; [| split; [| apply sameKey_stamp]]);
    repeat rewrite in_app_iff; cbn [fired In].
  - left. left. reflexivity.
  - reflexivity.
  - right. left. left. reflexivity.
  - reflexivity.
  - do 2 right. left. left. reflexivity.
  - reflexivity.
  - do 3 right. left. left. reflexivity.
  - reflexivity.
  - do 4 right. left. left. reflexivity.
  - reflexivity.
  - do 5 right. left. left. reflexivity.
  - reflexivity.
  - do 5 right. right. left. reflexivity.
  - reflexivity.
Qed.

Lemma collectAlerts_covers previous shipments s (P : Alert.t -> Prop) :
  In s shipments ->
  (forall k, exists c,
      In c (fst (analyzeShipmentForAlerts random env s (previousStatusOf previous s) k))
      /\ P c) ->
  forall n, exists c, In c (fst (collectAlerts random env previous shipments n)) /\ P c.
Proof.
  intros Hs Hk. induction shipments as [|x rest IH]; [destruct Hs |].
  intros n. rewrite collectAlerts_cons. cbv zeta. cbn [fst].
  destruct Hs as [-> | Hs].
  - destruct (Hk n) as (c & Hc & HP). exists c. split; [| exact HP].
    apply in_or_app. left. exact Hc.
  - destruct (IH Hs (snd (analyzeShipmentForAlerts random env x
                                (previousStatusOf previous x) n))) as (c & Hc & HP).
    exists c. split; [| exact HP]. apply in_or_app. right. exact Hc.
Qed.

Lemma previousStatusOf_same shipments s :
  NoDup (map Shipment.shipmentId shipments) ->
  In s shipments ->
  previousStatusOf shipments s = Some (Shipment.status s).
Proof.
  intros Hnd Hs. unfold previousStatusOf.
  rewrite (find_by_unique_id shipments s Hnd Hs). reflexivity.
Qed.

Lemma deliveredFires_steady s :
  deliveredFires s (Some (Shipment.status s)) = false.
Proof.
  unfold deliveredFires.
  destruct (String.eqb_spec (Shipment.status s) "delivered") as [-> | _]; reflexivity.
Qed.

(** The fields of the state after one run of the effect. *)
Lemma generateAlerts_fields shipments st :
  shipments <> [] ->
  let newAlerts := fst (collectAlerts random env (previousShipments st) shipments
                          (draws st)) in
  let st' := match newAlerts with
             | [] => st
             | _ :: _ => admitAlerts send preferences env newAlerts shipments st
             end in
  alerts (generateAlerts random send preferences env shipments st) = alerts st'
  /\ savedAlerts (generateAlerts random send preferences env shipments st)
     = savedAlerts st'
  /\ sent (generateAlerts random send preferences env shipments st) = sent st'
  /\ previousShipments (generateAlerts random send preferences env shipments st)
     = shipments
  /\ draws (generateAlerts random send preferences env shipments st)
     = snd (collectAlerts random env (previousShipments st) shipments (draws st)).
Proof.
  intros Hne. destruct shipments as [|s0 rest]; [contradiction |].
  cbv zeta. unfold generateAlerts.
  destruct (collectAlerts random env (previousShipments st) (s0 :: rest) (draws st))
    as [newAlerts drawn].
  cbn [fst snd]. repeat split.
Qed.

(** After a cycle from a clean set, every candidate of the batch has a
    live alert of its key in the set. *)
Lemma batch_is_covered_after_cycle shipments st c :
  hasPremiumFeatures env = false ->
  NoDup (map Shipment.shipmentId shipments) ->
  cleanupOutdatedAlerts env (alerts st) shipments = alerts st ->
  In c (fst (collectAlerts random env (previousShipments st) shipments (draws st))) ->
  exists e, In e (alerts (generateAlerts random send preferences env shipments st))
            /\ Alert.dismissed e = false
            /\ sameKey e c = true.
Proof.
  intros Hfree Hnd Hclean Hc.
  assert (Hne : shipments <> []).
  { intros ->. destruct Hc. }
  destruct (generateAlerts_fields shipments st Hne) as (-> & _).
  destruct (fst (collectAlerts random env (previousShipments st) shipments (draws st)))
    as [|c0 cs] eqn:Hbatch; [destruct Hc |].
  rewrite <- Hbatch in *. clear c0 cs Hbatch.
  set (batch := fst (collectAlerts random env (previousShipments st) shipments
                       (draws st))) in *.
  unfold admitAlerts.
  destruct (existsb (fun e => (sameKey e c && negb (Alert.dismissed e))%bool) (alerts st))
    eqn:Hex.
  - apply existsb_exists in Hex. destruct Hex as (e & He & Hk).
    apply andb_true_iff in Hk. destruct Hk as [Hk Hd]. apply negb_true_iff in Hd.
    exists e. split; [| auto].
    destruct (deduplicateAlerts batch (alerts st)); [exact He |].
    cbn [alerts]. apply filter_In. split; [apply in_or_app; right; exact He |].
    exact (filter_fixed_forall _ _ Hclean e He).
  - assert (Hadm : In c (deduplicateAlerts batch (alerts st))).
    { apply filter_In. split; [exact Hc | rewrite Hex; reflexivity]. }
    destruct (deduplicateAlerts batch (alerts st)) as [|u us] eqn:Hd; [destruct Hadm |].
    rewrite <- Hd in *. cbn [alerts].
    pose proof Hc as Ho. apply collectAlerts_In in Ho. destruct Ho as (s & Hs & Ho).
    exists c. split; [| split; [| apply sameKey_refl]].
    + apply filter_In. split; [apply in_or_app; left; exact Hadm |].
      exact (fresh_candidate_kept random env shipments s _ c Hfree Hnd Hs Ho).
    + destruct (origin_stamp random env s _ c Ho) as (ty & msg & p & x & ->).
      reflexivity.
Qed.

End Cycles.

(** X14: with the premium gate off, pairwise distinct shipment ids and an
    alert set that the cleanup leaves as it is, running the
    alert-generation effect a second time over the same collection at
    the same clock admits nothing: the alert set, the saved set and the
    notifications sent are those of the first run. *)
Theorem second_cycle_admits_nothing (random : nat -> string) (send : Dispatch -> bool)
    (preferences : Preferences) (env : Env) (shipments : list Shipment.t)
    (st0 : HookState) :
  hasPremiumFeatures env = false ->
  NoDup (map Shipment.shipmentId shipments) ->
  cleanupOutdatedAlerts env (alerts st0) shipments = alerts st0 ->
  let st1 := generateAlerts random send preferences env shipments st0 in
  let st2 := generateAlerts random send preferences env shipments st1 in
  alerts st2 = alerts st1 /\ savedAlerts st2 = savedAlerts st1 /\ sent st2 = sent st1.
Proof.
  intros Hfree Hnd Hclean. cbv zeta.
  destruct shipments as [|s0 rest] eqn:Hsh; [repeat split |].
  rewrite <- Hsh in *.
  assert (Hne : shipments <> []) by (rewrite Hsh; discriminate).
  set (st1 := generateAlerts random send preferences env shipments st0).
  destruct (generateAlerts_fields random send preferences env shipments st1 Hne)
    as (-> & -> & -> & _).
  destruct (generateAlerts_fields random send preferences env shipments st0 Hne)
    as (_ & _ & _ & Hprev & _).
  fold st1 in Hprev. rewrite Hprev.
  destruct (fst (collectAlerts random env shipments shipments (draws st1)))
    as [|c cs] eqn:Hbatch; [repeat split |].
  rewrite <- Hbatch. unfold admitAlerts.
  rewrite deduplicate_all_rejected; [repeat split |].
  intros c2 Hc2. apply collectAlerts_In in Hc2. destruct Hc2 as (s & Hs & Ho).
  rewrite (previousStatusOf_same shipments s Hnd Hs) in Ho.
  destruct (collectAlerts_covers random env (previousShipments st0) shipments s
              (fun c1 => Alert.dismissed c1 = false /\ sameKey c1 c2 = true) Hs)
    with (n := draws st0) as (c1 & Hc1 & _ & Hk).
  { intros k.
    apply (analyze_has_key random env s (previousStatusOf (previousShipments st0) s)
             (Some (Shipment.status s)) c2 k Ho).
    rewrite deliveredFires_steady. discriminate. }
  destruct (batch_is_covered_after_cycle random send preferences env shipments st0 c1
              Hfree Hnd Hclean Hc1) as (e & He & Hd & Hke).
  exists e. split; [exact He | split; [exact Hd |]].
  exact (sameKey_trans e c1 c2 Hke Hk).
Qed.

Lemma second_cycle_admits_nothing_witness :
  let st1 := generateAlerts Sample.random sendNotificationEmail Sample.preferences
               Sample.free [Sample.pendingYesterday; Sample.delayedAtCustoms]
               initialState in
  alerts (generateAlerts Sample.random sendNotificationEmail Sample.preferences
            Sample.free [Sample.pendingYesterday; Sample.delayedAtCustoms] st1)
  = alerts st1.
Proof.
  apply (second_cycle_admits_nothing Sample.random sendNotificationEmail
           Sample.preferences Sample.free
           [Sample.pendingYesterday; Sample.delayedAtCustoms] initialState).
  - reflexivity.
  - repeat constructor; simpl; intuition discriminate.
  - reflexivity.
Defined.

(** * The dedup invariant along the life of the hook *)

Lemma clash_key a b : clash a b -> keyOf a = keyOf b.
Proof. intros (_ & _ & Hk). apply sameKey_iff. exact Hk. Qed.

Lemma clash_title a b : clash a b -> Alert.title a = Alert.title b.
Proof. intros H. apply clash_key in H. unfold keyOf in H. congruence. Qed.

Lemma clash_shipmentId a b : clash a b -> Alert.shipmentId a = Alert.shipmentId b.
Proof. intros H. apply clash_key in H. unfold keyOf in H. congruence. Qed.

Ltac distinct_titles :=
  let b := fresh "b" in
  let Hb := fresh "Hb" in
  let Hc := fresh "Hc" in
  intros b Hb Hc; cbn [In] in Hb;
  repeat (destruct Hb as [Hb | Hb]; [subst b; apply clash_title in Hc; discriminate Hc |]);
  destruct Hb.

(** The candidates of one analysis have pairwise distinct keys when the
    premium gate is off. *)
Lemma analyze_unique_keys random env s prev n :
  hasPremiumFeatures env = false ->
  UniqueKeys (fst (analyzeShipmentForAlerts random env s prev n)).
Proof.
  intros Hfree. rewrite analyze_alerts. unfold advancedFired. rewrite Hfree.
  unfold overdueFires, delayedFires, deliverySoonFires, deliveredFires, isShipmentStuck.
  destruct (Shipment.estimatedDelivery s) as [est|];
    [destruct (est <? now env)%Z |];
    destruct (48 <? getHoursSinceUpdate env s)%Z;
    destruct (JS.strictEq prev (Some "delivered"));
    status_cases s; try congruence; cbn [andb orb negb fired drawsAfter app];
    repeat (apply UniqueKeys_cons; [distinct_titles |]); apply UniqueKeys_nil.
Qed.

Lemma batch_unique_keys random env previous shipments n :
  hasPremiumFeatures env = false ->
  NoDup (map Shipment.shipmentId shipments) ->
  UniqueKeys (fst (collectAlerts random env previous shipments n)).
Proof.
  intros Hfree. revert n. induction shipments as [|s rest IH]; intros n Hnd.
  - constructor.
  - rewrite collectAlerts_cons. cbv zeta. cbn [fst].
    cbn [map] in Hnd. inversion Hnd as [|i l Hnotin Hnd']; subst.
    apply UniqueKeys_app.
    + apply analyze_unique_keys. exact Hfree.
    + apply IH. exact Hnd'.
    + intros a b Ha Hb Hc. apply clash_shipmentId in Hc.
      apply analyze_In_origin, origin_stamp in Ha.
      destruct Ha as (ty & msg & p & x & ->).
      apply collectAlerts_In in Hb. destruct Hb as (s' & Hs' & Ho).
      apply origin_stamp in Ho. destruct Ho as (ty' & msg' & p' & x' & ->).
      apply Hnotin. change (Shipment.shipmentId s = Shipment.shipmentId s') in Hc.
      rewrite Hc. apply in_map. exact Hs'.
Qed.

(** X15: with the premium gate off and pairwise distinct shipment ids, a
    run of the alert-generation effect keeps the invariant "at most one
    undismissed alert per (shipmentId, type, title)". *)
Theorem cycle_keeps_keys_unique (random : nat -> string) (send : Dispatch -> bool)
    (preferences : Preferences) (env : Env) (shipments : list Shipment.t)
    (st : HookState) :
  hasPremiumFeatures env = false ->
  NoDup (map Shipment.shipmentId shipments) ->
  UniqueKeys (alerts st) ->
  UniqueKeys (alerts (generateAlerts random send preferences env shipments st)).
Proof.
  intros Hfree Hnd Hst.
  destruct shipments as [|s0 rest] eqn:Hsh; [exact Hst |].
  rewrite <- Hsh in *.
  assert (Hne : shipments <> []) by (rewrite Hsh; discriminate).
  destruct (generateAlerts_fields random send preferences env shipments st Hne)
    as (-> & _).
  destruct (fst (collectAlerts random env (previousShipments st) shipments (draws st)))
    as [|c cs] eqn:Hbatch; [exact Hst |].
  rewrite <- Hbatch.
  apply admitAlerts_keeps_keys_unique; [exact Hst |].
  apply batch_unique_keys; assumption.
Qed.

Lemma cycle_keeps_keys_unique_witness :
  UniqueKeys (alerts (generateAlerts Sample.random sendNotificationEmail
                        Sample.preferences Sample.free
                        [Sample.pendingYesterday; Sample.delayedAtCustoms]
                        initialState)).
Proof.
  apply (cycle_keeps_keys_unique Sample.random sendNotificationEmail Sample.preferences
           Sample.free [Sample.pendingYesterday; Sample.delayedAtCustoms] initialState).
  - reflexivity.
  - repeat constructor; simpl; intuition discriminate.
  - constructor.
Defined.

Lemma UniqueKeys_map (f : Alert.t -> Alert.t) (l : list Alert.t) :
  (forall a, keyOf (f a) = keyOf a) ->
  (forall a, Alert.dismissed (f a) = false -> Alert.dismissed a = false) ->
  UniqueKeys l -> UniqueKeys (map f l).
Proof.
  intros Hkey Hdis. induction 1 as [|a l Ha Hl IH]; cbn [map]; constructor; auto.
  intros b Hb (Hd1 & Hd2 & Hk). apply in_map_iff in Hb. destruct Hb as (b0 & <- & Hb0).
  apply (Ha b0 Hb0). repeat split; auto.
  apply sameKey_iff. apply sameKey_iff in Hk.
  rewrite <- (Hkey a), <- (Hkey b0). exact Hk.
Qed.

Lemma markDismissed_key env alertId a :
  keyOf (markDismissed env alertId a) = keyOf a
  /\ (Alert.dismissed (markDismissed env alertId a) = false -> Alert.dismissed a = false).
Proof.
  unfold markDismissed. destruct (String.eqb (Alert.id a) alertId); split; auto.
  discriminate.
Qed.

Lemma markRead_fields env alertId a :
  keyOf (markRead env alertId a) = keyOf a
  /\ Alert.dismissed (markRead env alertId a) = Alert.dismissed a
  /\ Alert.id (markRead env alertId a) = Alert.id a
  /\ Alert.priority (markRead env alertId a) = Alert.priority a.
Proof.
  unfold markRead. destruct (String.eqb (Alert.id a) alertId); repeat split.
Qed.

(** X16: the user operations keep the invariant too: dismissing,
    marking as read and clearing never create a second undismissed alert
    with a key already present. *)
Theorem user_operations_keep_keys_unique (env : Env) (alertId : string) (st : HookState) :
  UniqueKeys (alerts st) ->
  UniqueKeys (alerts (dismissAlert env alertId st))
  /\ UniqueKeys (alerts (markAlertAsRead env alertId st))
  /\ UniqueKeys (alerts (clearAllAlerts st)).
Proof.
  intros Hst. split; [| split].
  - unfold dismissAlert. cbn [alerts]. apply UniqueKeys_filter.
    apply UniqueKeys_map; auto; intros a; apply markDismissed_key.
  - unfold markAlertAsRead. cbn [alerts].
    apply UniqueKeys_map; auto; intros a.
    + apply markRead_fields.
    + destruct (markRead_fields env alertId a) as (_ & -> & _). auto.
  - constructor.
Qed.

Lemma user_operations_keep_keys_unique_witness :
  UniqueKeys (alerts (dismissAlert Sample.free "alert_1700000000000_r0"
                        Dismissed.afterFirstCycle)).
Proof.
  apply (user_operations_keep_keys_unique Sample.free "alert_1700000000000_r0"
           Dismissed.afterFirstCycle).
  vm_compute. repeat constructor. intros b [].
Defined.

(** * Notification over a port that may fail *)

Section AnyPort.

Variable send : Dispatch -> bool.

Lemma sendEach_prefix (ds : list Dispatch) :
  exists rest, ds = (fst (sendEach send ds) ++ rest)%list
               /\ (snd (sendEach send ds) = true -> rest = []).
Proof.
  induction ds as [|d ds (rest & Hrest & Hok)]; cbn [sendEach].
  - exists []. split; reflexivity.
  - destruct (send d).
    + destruct (sendEach send ds) as [made ok]. cbn [fst snd] in *.
      exists rest. split; [rewrite Hrest at 1; reflexivity | exact Hok].
    + exists ds. split; [reflexivity | discriminate].
Qed.

Lemma sendEach_resolved (ds : list Dispatch) :
  (snd (sendEach send ds) = true -> forall d, In d ds -> send d = true)
  /\ (forall pre d post, fst (sendEach send ds) = (pre ++ d :: post)%list ->
                         post <> [] -> send d = true).
Proof.
  induction ds as [|x ds [IH1 IH2]]; cbn [sendEach].
  - split; [intros _ d [] |].
    intros pre d post H. destruct pre; discriminate H.
  - destruct (send x) eqn:Hx.
    + destruct (sendEach send ds) as [made ok]. cbn [fst snd] in *. split.
      * intros Hok d [<- | Hd]; [exact Hx | apply IH1; assumption].
      * intros pre d post H Hpost. destruct pre as [|p pre]; cbn [app] in H.
        -- injection H as <- _. exact Hx.
        -- injection H as _ H. apply (IH2 pre d post H Hpost).
    + cbn [fst snd]. split; [discriminate |].
      intros pre d post H Hpost. destruct pre as [|p pre]; cbn [app] in H.
      * injection H as _ H. congruence.
      * injection H as _ H. destruct pre; discriminate H.
Qed.

End AnyPort.

Lemma in_before_last {A : Type} (l pre post : list A) (g d : A) :
  (l ++ [g])%list = (pre ++ d :: post)%list -> post <> [] -> In d l.
Proof.
  intros H Hpost. destruct (exists_last Hpost) as (post' & z & ->).
  change (pre ++ d :: post' ++ [z])%list with (pre ++ (d :: post') ++ [z])%list in H.
  rewrite app_assoc in H. apply app_inj_tail in H. destruct H as [-> _].
  apply in_or_app. right. left. reflexivity.
Qed.

(** X17: whatever the Notification Port does, the calls made are an
    initial part of the calls made when every call resolves; every call
    but the last one resolved (the first rejection ends the dispatch);
    and no call ever carries an alert that the preferences suppress: an
    "alert" call is for an unsuppressed high-priority alert of the input,
    a "digest" call holds exactly the unsuppressed alerts of the input
    that are not of high priority. *)
Theorem notifications_on_any_port (send : Dispatch -> bool) (preferences : Preferences)
    (admitted : list Alert.t) (email : string) :
  let calls := processAlertNotifications send preferences admitted email in
  let full := processAlertNotifications (fun _ => true) preferences admitted email in
  let remaining := filter (fun a => negb (suppressed preferences a)) admitted in
  (exists rest, full = (calls ++ rest)%list)
  /\ (forall pre d post, calls = (pre ++ d :: post)%list -> post <> [] -> send d = true)
  /\ (forall d, In d calls ->
        (exists a, In a admitted /\ suppressed preferences a = false
                   /\ Alert.priority a = "high" /\ d = alertDispatch email a)
        \/ d = digestDispatch email (filter (fun a => negb (isHigh a)) remaining)).
Proof.
  cbv zeta.
  assert (Hprefix : exists rest,
             processAlertNotifications (fun _ => true) preferences admitted email
             = (processAlertNotifications send preferences admitted email ++ rest)%list).
  { unfold processAlertNotifications.
    destruct admitted as [|a0 rest0]; [exists []; reflexivity |].
    destruct (negb (emailNotifications preferences)); [exists []; reflexivity |].
    set (ds := map (alertDispatch email)
                 (filter (fun alert => String.eqb (Alert.priority alert) "high")
                    (filter (preferenceFilter preferences) (a0 :: rest0)))).
    rewrite (sendEach_all_resolve (fun _ => true) ds (fun _ => eq_refl)).
    destruct (sendEach_prefix send ds) as (rest & Hrest & Hok).
    destruct (sendEach send ds) as [made ok]. cbn [fst snd] in *.
    destruct ok.
    - rewrite (Hok eq_refl), app_nil_r in Hrest. subst made.
      exists []. rewrite app_nil_r. reflexivity.
    - destruct (0 <? List.length _)%nat.
      + exists (rest ++ [digestDispatch email
                           (filter (fun alert =>
                                      negb (String.eqb (Alert.priority alert) "high"))
                              (filter (preferenceFilter preferences) (a0 :: rest0)))])%list.
        rewrite app_assoc, <- Hrest. reflexivity.
      + exists rest. exact Hrest. }
  split; [exact Hprefix | split].
  - unfold processAlertNotifications.
    destruct admitted as [|a0 rest0];
      [intros pre d post H; destruct pre; discriminate H |].
    destruct (negb (emailNotifications preferences));
      [intros pre d post H; destruct pre; discriminate H |].
    set (ds := map (alertDispatch email)
                 (filter (fun alert => String.eqb (Alert.priority alert) "high")
                    (filter (preferenceFilter preferences) (a0 :: rest0)))).
    pose proof (sendEach_resolved send ds) as [Hall Hlast].
    pose proof (sendEach_prefix send ds) as (rest & Hrest & Hok).
    destruct (sendEach send ds) as [made ok]. cbn [fst snd] in *.
    destruct ok; [| exact Hlast].
    rewrite (Hok eq_refl), app_nil_r in Hrest. subst made.
    destruct (0 <? List.length _)%nat.
    + intros pre d post H Hpost. apply (Hall eq_refl).
      exact (in_before_last _ _ _ _ _ H Hpost).
    + exact Hlast.
  - intros d Hd. destruct Hprefix as (rest & Hfull).
    assert (Hin : In d (processAlertNotifications (fun _ => true) preferences
                          admitted email)).
    { rewrite Hfull. apply in_or_app. left. exact Hd. }
    destruct (emailNotifications preferences) eqn:Hon.
    + rewrite (notifications_when_enabled (fun _ => true) preferences admitted email
                 (fun _ => eq_refl) Hon) in Hin.
      cbv zeta in Hin. apply in_app_or in Hin. destruct Hin as [Hin | Hin].
      * left. apply in_map_iff in Hin. destruct Hin as (a & <- & Ha).
        apply filter_In in Ha. destruct Ha as [Ha Hhigh].
        apply filter_In in Ha. destruct Ha as [Ha Hsup].
        exists a. apply negb_true_iff in Hsup. apply String.eqb_eq in Hhigh. auto.
      * right.
        destruct (filter (fun a => negb (isHigh a))
                    (filter (fun a => negb (suppressed preferences a)) admitted));
          [destruct Hin |].
        destruct Hin as [<- | []]. reflexivity.
    + unfold processAlertNotifications in Hin. rewrite Hon in Hin.
      destruct admitted; destruct Hin.
Qed.

(** * Dismissal, reading and loading *)

Lemma filter_same_length {A : Type} (f : A -> bool) (l : list A) :
  List.length (filter f l) = List.length l -> filter f l = l.
Proof.
  induction l as [|x l IH]; cbn [filter]; [reflexivity |].
  destruct (f x); cbn [List.length]; intros H.
  - f_equal. apply IH. lia.
  - pose proof (filter_length_le f l). lia.
Qed.

(** X18: after [dismissAlert] the state holds no dismissed alert, so the
    visible list is the state; and the dismissed alert stays in storage
    only until the next save: a following [dismissAlert] or
    [markAlertAsRead], of any id, saves a set without it. *)
Theorem dismissed_alert_leaves_storage_at_next_save (env env' : Env)
    (alertId other : string) (st : HookState) :
  let st1 := dismissAlert env alertId st in
  Forall (fun a => Alert.dismissed a = false) (alerts st1)
  /\ visibleAlerts st1 = alerts st1
  /\ (forall b, In b (savedAlerts (dismissAlert env' other st1)) ->
                Alert.id b <> alertId /\ (Alert.dismissed b = true -> Alert.id b = other))
  /\ (forall b, In b (savedAlerts (markAlertAsRead env' other st1)) ->
                Alert.id b <> alertId /\ Alert.dismissed b = false).
Proof.
  cbv zeta.
  assert (Hst1 : forall b, In b (alerts (dismissAlert env alertId st)) ->
                           Alert.id b <> alertId /\ Alert.dismissed b = false).
  { intros b Hb. unfold dismissAlert in Hb. cbn [alerts] in Hb.
    apply filter_In in Hb. destruct Hb as [Hb Hd]. apply negb_true_iff in Hd.
    destruct (proj1 (undismissed_after_marking env alertId (alerts st) b) (conj Hb Hd))
      as (_ & Hid & _). auto. }
  split; [| split; [| split]].
  - apply Forall_forall. intros b Hb. apply Hst1. exact Hb.
  - unfold visibleAlerts, dismissAlert. cbn [alerts]. apply filter_idempotent.
  - intros b Hb. unfold dismissAlert at 1 in Hb. cbn [savedAlerts] in Hb.
    apply in_map_iff in Hb. destruct Hb as (b0 & <- & Hb0).
    destruct (Hst1 b0 Hb0) as [Hid Hd].
    destruct (String.eqb_spec (Alert.id b0) other) as [Heq | Hne].
    + destruct (markDismissed_hit env' other b0 Heq) as (_ & _ & -> & _). auto.
    + rewrite (markDismissed_miss env' other b0 Hne). split; [exact Hid | congruence].
  - intros b Hb. unfold markAlertAsRead in Hb. cbn [savedAlerts] in Hb.
    apply in_map_iff in Hb. destruct Hb as (b0 & <- & Hb0).
    destruct (Hst1 b0 Hb0) as [Hid Hd].
    destruct (markRead_fields env' other b0) as (_ & -> & -> & _). auto.
Qed.

Lemma existsb_map {A B : Type} (g : B -> bool) (f : A -> B) (l : list A) :
  existsb g (map f l) = existsb (fun x => g (f x)) l.
Proof. induction l as [|x l IH]; cbn; [| rewrite IH]; reflexivity. Qed.

Lemma markRead_stays_read env alertId a :
  isUnread (markRead env alertId a) = true -> isUnread a = true.
Proof.
  unfold markRead, isUnread. destruct (String.eqb (Alert.id a) alertId); cbn [Alert.read].
  - discriminate.
  - auto.
Qed.

(** X19: [markAlertAsRead] touches nothing but [read] and [readAt]: the
    alerts keep their order, ids, keys and dismissal, so the same
    candidates are admitted afterwards; every alert with the given id is
    read; the saved set is the new state; the total is unchanged and the
    unread count does not grow. *)
Theorem mark_as_read_changes_only_read (env : Env) (alertId : string) (st : HookState) :
  let st' := markAlertAsRead env alertId st in
  map Alert.id (alerts st') = map Alert.id (alerts st)
  /\ map keyOf (alerts st') = map keyOf (alerts st)
  /\ map Alert.dismissed (alerts st') = map Alert.dismissed (alerts st)
  /\ (forall newAlerts,
        deduplicateAlerts newAlerts (alerts st') = deduplicateAlerts newAlerts (alerts st))
  /\ (forall b, In b (alerts st') -> Alert.id b = alertId ->
                Alert.read b = Some true /\ Alert.readAt b = Some (now env))
  /\ savedAlerts st' = alerts st'
  /\ AlertCounts.total (getAlertCounts st') = AlertCounts.total (getAlertCounts st)
  /\ (AlertCounts.unread (getAlertCounts st') <= AlertCounts.unread (getAlertCounts st))%nat.
Proof.
  cbv zeta. unfold markAlertAsRead. cbn [alerts savedAlerts].
  repeat split.
  - rewrite map_map. apply map_ext. intros a. apply markRead_fields.
  - rewrite map_map. apply map_ext. intros a. apply markRead_fields.
  - rewrite map_map. apply map_ext. intros a. apply markRead_fields.
  - intros newAlerts. unfold deduplicateAlerts. apply filter_ext. intros c.
    rewrite existsb_map. f_equal. induction (alerts st) as [|e l IH]; cbn [existsb];
      [reflexivity |].
    rewrite IH. f_equal.
    destruct (markRead_fields env alertId e) as (Hk & -> & _).
    f_equal. destruct (sameKey e c) eqn:Hs.
    + apply sameKey_iff. apply sameKey_iff in Hs. congruence.
    + destruct (sameKey (markRead env alertId e) c) eqn:Hs'; [| reflexivity].
      apply sameKey_iff in Hs'. rewrite Hk in Hs'. apply sameKey_iff in Hs'. congruence.
  - apply in_map_iff in H. destruct H as (b0 & <- & _).
    destruct (markRead_fields env alertId b0) as (_ & _ & Hid & _).
    rewrite Hid in H0. unfold markRead.
    rewrite (proj2 (String.eqb_eq _ _) H0). reflexivity.
  - apply in_map_iff in H. destruct H as (b0 & <- & _).
    destruct (markRead_fields env alertId b0) as (_ & _ & Hid & _).
    rewrite Hid in H0. unfold markRead.
    rewrite (proj2 (String.eqb_eq _ _) H0). reflexivity.
  - unfold getAlertCounts. cbn [AlertCounts.total alerts]. apply length_map.
  - unfold getAlertCounts, countWhere. cbn [AlertCounts.unread alerts].
    induction (alerts st) as [|e l IH]; cbn [map filter]; [lia |].
    pose proof (markRead_stays_read env alertId e) as Hmono.
    destruct (isUnread (markRead env alertId e)), (isUnread e); cbn [List.length];
      try lia; discriminate (Hmono eq_refl).
Qed.

(** X20: after the mount effect the state and the storage hold the same
    set, the saved set cleaned against the collection of that render;
    mounted with an empty collection, the hook discards every saved alert
    and empties the storage. *)
Theorem load_cleans_state_and_storage (env : Env) (shipments : list Shipment.t)
    (st : HookState) :
  alerts (loadSavedAlerts env shipments st)
  = cleanupOutdatedAlerts env (savedAlerts st) shipments
  /\ savedAlerts (loadSavedAlerts env shipments st)
     = alerts (loadSavedAlerts env shipments st)
  /\ alerts (loadSavedAlerts env [] st) = []
  /\ savedAlerts (loadSavedAlerts env [] st) = [].
Proof.
  assert (Hsync : forall sh, savedAlerts (loadSavedAlerts env sh st)
                             = alerts (loadSavedAlerts env sh st)).
  { intros sh. unfold loadSavedAlerts. cbn [alerts savedAlerts].
    destruct (Nat.eqb_spec (List.length (cleanupOutdatedAlerts env (savedAlerts st) sh))
                (List.length (savedAlerts st))) as [Heq | Hne]; cbn [negb];
      [| reflexivity].
    symmetry. apply filter_same_length. exact Heq. }
  assert (Hempty : alerts (loadSavedAlerts env [] st) = []).
  { unfold loadSavedAlerts. cbn [alerts]. unfold cleanupOutdatedAlerts.
    induction (savedAlerts st) as [|a l IH]; cbn; auto. }
  repeat split; auto. rewrite Hsync. exact Hempty.
Qed.

(** * The delivered edge over cycles *)

Lemma origin_success random env s prev a :
  Origin random env s prev a ->
  Alert.type a = "success" ->
  deliveredFires s prev = true.
Proof.
  intros [k Hc ->|k Hc ->|k Hc ->|k Hc ->|k Hc ->|k Hp Hc ->|k text Hp Hc ->] Ht;
    try discriminate Ht; try exact Hc.
  pose proof (delayedAlert_not_success random env s k) as Hn.
  unfold isSuccess in Hn. rewrite Ht in Hn. discriminate Hn.
Qed.

(** X21: the previous collection kept by a cycle is the collection it
    ran over, so with pairwise distinct shipment ids the batch of the
    next cycle over the same collection holds no success alert; with no
    previous collection at all (a fresh mount) every delivered shipment
    gets its "Package Delivered" candidate again. *)
Theorem delivered_edge_over_cycles (random : nat -> string) (send : Dispatch -> bool)
    (preferences : Preferences) (env : Env) (shipments : list Shipment.t)
    (st : HookState) (n : nat) :
  (NoDup (map Shipment.shipmentId shipments) ->
   forall a,
     In a (fst (collectAlerts random env
                  (previousShipments
                     (generateAlerts random send preferences env shipments st))
                  shipments n)) ->
     Alert.type a <> "success")
  /\ (forall s, In s shipments -> Shipment.status s = "delivered" ->
                exists a, In a (fst (collectAlerts random env [] shipments n))
                          /\ Alert.title a = "Package Delivered"
                          /\ Alert.type a = "success"
                          /\ Alert.shipmentId a = Shipment.shipmentId s).
Proof.
  split.
  - intros Hnd a Hin Hsucc.
    destruct shipments as [|s0 rest] eqn:Hsh; [destruct Hin |].
    rewrite <- Hsh in *.
    assert (Hne : shipments <> []) by (rewrite Hsh; discriminate).
    destruct (generateAlerts_fields random send preferences env shipments st Hne)
      as (_ & _ & _ & Hprev & _).
    rewrite Hprev in Hin. apply collectAlerts_In in Hin. destruct Hin as (s & Hs & Ho).
    rewrite (previousStatusOf_same shipments s Hnd Hs) in Ho.
    apply (origin_success random env s _ a Ho) in Hsucc.
    rewrite deliveredFires_steady in Hsucc. discriminate.
  - intros s Hs Hdel.
    apply (collectAlerts_covers random env [] shipments s
             (fun a => Alert.title a = "Package Delivered"
                       /\ Alert.type a = "success"
                       /\ Alert.shipmentId a = Shipment.shipmentId s) Hs).
    intros k. eexists. split.
    + rewrite analyze_alerts. unfold deliveredFires at 1. rewrite Hdel.
      cbn [previousStatusOf find JS.strictEq negb andb String.eqb].
      repeat rewrite in_app_iff. do 3 right. left. left. reflexivity.
    + repeat split.
Qed.

Lemma delivered_edge_over_cycles_witness :
  exists a, In a (fst (collectAlerts Sample.random Sample.free []
                        [Sample.deliveredParcel] 0%nat))
            /\ Alert.title a = "Package Delivered".
Proof.
  destruct (proj2 (delivered_edge_over_cycles Sample.random sendNotificationEmail
                     Sample.preferences Sample.free [Sample.deliveredParcel]
                     initialState 0%nat)
              Sample.deliveredParcel (or_introl eq_refl) eq_refl)
    as (a & Hin & Ht & _).
  exists a. auto.
Defined.

(** * The dashboard summary *)

Lemma ownType_bumpOwn (type key : string) (types : list (string * TypeEntry)) :
  ownType key (bumpOwn type types)
  = if String.eqb type key
    then Some (match ownType key types with
               | Some v => addOne v
               | None => firstEntry key
               end)
    else ownType key types.
Proof.
  induction types as [|[k v] rest IH]; cbn [bumpOwn ownType].
  - destruct (String.eqb_spec type key) as [-> | _]; reflexivity.
  - destruct (String.eqb_spec k type) as [Hkt | Hkt]; cbn [ownType];
      destruct (String.eqb_spec k key) as [Hkk | Hkk];
      destruct (String.eqb_spec type key) as [Htk | Htk];
      try congruence; reflexivity.
Qed.

Lemma ownType_bumpType (type key : string) (types : list (string * TypeEntry)) :
  ownType key (bumpType type types)
  = if (negb (String.eqb type "__proto__") && String.eqb type key)%bool
    then Some (match ownType key types with
               | Some v => addOne v
               | None => firstEntry key
               end)
    else ownType key types.
Proof.
  unfold bumpType. destruct (String.eqb type "__proto__"); cbn [negb andb].
  - reflexivity.
  - apply ownType_bumpOwn.
Qed.

Lemma list_sum_cons (x : nat) (l : list nat) : list_sum (x :: l) = (x + list_sum l)%nat.
Proof. reflexivity. Qed.

Lemma bumpOwn_facts (type : string) (types : list (string * TypeEntry)) :
  NoDup (map fst types) ->
  WellFormedTypes types ->
  NoDup (map fst (bumpOwn type types))
  /\ (forall k, In k (map fst (bumpOwn type types)) <-> k = type \/ In k (map fst types))
  /\ WellFormedTypes (bumpOwn type types)
  /\ countsTotal (bumpOwn type types)
     = (countsTotal types + if inheritedName type then 0 else 1)%nat.
Proof.
  unfold countsTotal.
  induction types as [|[k v] rest IH]; cbn [bumpOwn map fst snd]; intros Hnd Hwf.
  - split; [repeat constructor; intros [] | split; [| split]].
    + intros k. cbn. intuition.
    + intros k v [Hkv | []]. injection Hkv as <- <-. unfold firstEntry.
      destruct (inheritedName type); eexists; reflexivity.
    + unfold firstEntry. destruct (inheritedName type); reflexivity.
  - inversion Hnd as [|x l Hnotin Hnd']; subst.
    assert (Hwf' : WellFormedTypes rest).
    { intros k' v' Hin. apply Hwf. right. exact Hin. }
    destruct (IH Hnd' Hwf') as (IH1 & IH2 & IH3 & IH4).
    pose proof (Hwf k v (or_introl eq_refl)) as Hkv.
    destruct (String.eqb_spec k type) as [-> | Hkt]; cbn [map fst snd].
    + split; [exact Hnd | split; [| split]].
      * intros k. cbn. intuition.
      * intros k' v' [Heq | Hin]; [| apply Hwf; right; exact Hin].
        injection Heq as <- <-.
        destruct (inheritedName type); destruct Hkv as (n & ->); eexists; reflexivity.
      * rewrite !list_sum_cons. cbn [snd].
        destruct (inheritedName type); destruct Hkv as (n & ->); cbn [addOne]; lia.
    + split; [| split; [| split]].
      * constructor; [| exact IH1]. intros Hin. apply IH2 in Hin.
        destruct Hin as [-> | Hin]; [contradiction | exact (Hnotin Hin)].
      * intros k'. cbn [In]. rewrite IH2. tauto.
      * intros k' v' [Heq | Hin]; [apply Hwf; left; exact Heq | apply IH3; exact Hin].
      * rewrite !list_sum_cons, IH4. lia.
Qed.

Lemma entryAfter_fresh (key : string) (k : nat) :
  entryAfter key k None
  = match k with
    | O => None
    | S _ => Some (if inheritedName key then InheritedText k else Count k)
    end.
Proof.
  induction k as [|k IH]; [reflexivity |].
  unfold entryAfter in *. rewrite Nat.iter_succ, IH. unfold firstEntry.
  destruct k; destruct (inheritedName key); reflexivity.
Qed.

Lemma summary_types_fold (alerts : list Alert.t) (acc : list (string * TypeEntry))
    (key : string) :
  NoDup (map fst acc) ->
  WellFormedTypes acc ->
  let types := fold_left (fun types alert => bumpType (Alert.type alert) types)
                 alerts acc in
  NoDup (map fst types)
  /\ countsTotal types
     = (countsTotal acc
        + countWhere (fun a => negb (inheritedName (Alert.type a))) alerts)%nat
  /\ ownType key types
     = if String.eqb key "__proto__" then ownType key acc
       else entryAfter key (countWhere (fun a => String.eqb (Alert.type a) key) alerts)
              (ownType key acc).
Proof.
  revert acc. induction alerts as [|a l IH]; intros acc Hnd Hwf; cbn [fold_left].
  - cbv zeta. unfold countWhere. cbn.
    split; [exact Hnd | split; [lia |]].
    destruct (String.eqb key "__proto__"); reflexivity.
  - assert (Hstep : NoDup (map fst (bumpType (Alert.type a) acc))
                    /\ WellFormedTypes (bumpType (Alert.type a) acc)
                    /\ countsTotal (bumpType (Alert.type a) acc)
                       = (countsTotal acc
                          + if inheritedName (Alert.type a) then 0 else 1)%nat).
    { unfold bumpType.
      destruct (String.eqb_spec (Alert.type a) "__proto__") as [Hp | Hp].
      - rewrite Hp. split; [exact Hnd | split; [exact Hwf | cbn; lia]].
      - destruct (bumpOwn_facts (Alert.type a) acc Hnd Hwf) as (H1 & _ & H3 & H4).
        auto. }
    destruct Hstep as (Hnd' & Hwf' & Hsum).
    destruct (IH (bumpType (Alert.type a) acc) Hnd' Hwf') as (H1 & H2 & H3).
    cbv zeta in *. split; [exact H1 |].
    split.
    + rewrite H2, Hsum. unfold countWhere. cbn [filter].
      destruct (inheritedName (Alert.type a)); cbn [negb List.length]; lia.
    + rewrite H3, ownType_bumpType. unfold countWhere. cbn [filter].
      destruct (String.eqb_spec key "__proto__") as [Hkey | Hkey].
      * destruct (String.eqb_spec (Alert.type a) "__proto__") as [Hp | Hp];
          cbn [negb andb]; [reflexivity |].
        destruct (String.eqb_spec (Alert.type a) key); [congruence | reflexivity].
      * destruct (String.eqb_spec (Alert.type a) key) as [Hak | Hak].
        -- destruct (String.eqb_spec (Alert.type a) "__proto__") as [Hp | Hp];
             [congruence |].
           cbn [negb andb List.length]. unfold entryAfter.
           rewrite Nat.iter_succ_r. reflexivity.
        -- rewrite andb_false_r. reflexivity.
Qed.

(** X22: [getAlertSummary] counts by type correctly for every type that
    names no property inherited from [Object.prototype] (the four alert
    types among them): the [types] object has each own key once, the
    value under such a type is the number of alerts of that type, and a
    type that does not occur has no key.  A type that names an inherited
    property gets a string instead of a count, "__proto__" never gets an
    own key; so the numbers in [types] add up to the number of alerts
    whose type names no inherited property, which is [total] when no
    alert has such a type. *)
Theorem alert_summary_counts_by_type (alerts : list Alert.t) (type : string) :
  let summary := getAlertSummary alerts in
  let occurrences := countWhere (fun a => String.eqb (Alert.type a) type) alerts in
  NoDup (map fst (AlertSummary.types summary))
  /\ (inheritedName type = false ->
      ownType type (AlertSummary.types summary)
      = match occurrences with
        | O => None
        | S _ => Some (Count occurrences)
        end)
  /\ (inheritedName type = true -> type <> "__proto__" ->
      ownType type (AlertSummary.types summary)
      = match occurrences with
        | O => None
        | S _ => Some (InheritedText occurrences)
        end)
  /\ ownType "__proto__" (AlertSummary.types summary) = None
  /\ countsTotal (AlertSummary.types summary)
     = countWhere (fun a => negb (inheritedName (Alert.type a))) alerts
  /\ (Forall (fun a => inheritedName (Alert.type a) = false) alerts ->
      countsTotal (AlertSummary.types summary) = AlertSummary.total summary).
Proof.
  cbv zeta. unfold getAlertSummary. cbn [AlertSummary.types AlertSummary.total].
  assert (Hwf : WellFormedTypes []) by (intros k v []).
  destruct (summary_types_fold alerts [] type (NoDup_nil _) Hwf) as (H1 & H2 & H3).
  destruct (summary_types_fold alerts [] "__proto__" (NoDup_nil _) Hwf) as (_ & _ & H4).
  cbv zeta in *. cbn [ownType] in *. change (countsTotal []) with 0%nat in H2.
  split; [exact H1 |].
  split; [| split; [| split; [| split]]].
  - intros Hord. rewrite H3.
    destruct (String.eqb_spec type "__proto__") as [-> | _]; [discriminate Hord |].
    rewrite entryAfter_fresh, Hord. reflexivity.
  - intros Hinh Hne. rewrite H3.
    destruct (String.eqb_spec type "__proto__") as [-> | _]; [contradiction |].
    rewrite entryAfter_fresh, Hinh. reflexivity.
  - exact H4.
  - rewrite H2. reflexivity.
  - intros Hall. rewrite H2. cbn [Nat.add]. unfold countWhere. f_equal.
    apply forallb_filter_id. apply forallb_forall. intros a Ha.
    rewrite (proj1 (Forall_forall _ _) Hall a Ha). reflexivity.
Qed.

Lemma alert_summary_counts_by_type_witness :
  ownType "warning"
    (AlertSummary.types
       (getAlertSummary
          (fst (collectAlerts Sample.random Sample.free []
                  [Sample.pendingYesterday; Sample.delayedAtCustoms] 0%nat))))
  = Some (Count 2).
Proof.
  destruct (alert_summary_counts_by_type
              (fst (collectAlerts Sample.random Sample.free []
                      [Sample.pendingYesterday; Sample.delayedAtCustoms] 0%nat))
              "warning") as (_ & Hcount & _).
  rewrite (Hcount eq_refl). vm_compute. reflexivity.
Defined.

Lemma priority_partition (l : list Alert.t) :
  Forall (fun a => Alert.priority a = "high" \/ Alert.priority a = "medium") l ->
  countWhere (fun a => String.eqb (Alert.priority a) "low") l = 0%nat
  /\ (countWhere (fun a => String.eqb (Alert.priority a) "high") l
      + countWhere (fun a => String.eqb (Alert.priority a) "medium") l)%nat
     = List.length l.
Proof.
  unfold countWhere. induction 1 as [|a l Ha Hl [IH1 IH2]]; cbn [filter List.length].
  - split; reflexivity.
  - destruct Ha as [-> | ->]; cbn; split; auto; lia.
Qed.

Lemma origin_priority random env s prev a :
  Origin random env s prev a ->
  Alert.priority a = "high" \/ Alert.priority a = "medium".
Proof.
  intros [k Hc ->|k Hc ->|k Hc ->|k Hc ->|k Hc ->|k Hp Hc ->|k text Hp Hc ->];
    try (left; reflexivity); try (right; reflexivity).
  unfold delayedAlert.
  destruct (stamp_fields env (getDelayAlertType (getDelayReason s))
              (Shipment.nickname s ++ ": " ++ getDelayReason s) s None (random k))
    as (_ & -> & _).
  destruct (delayAlertType_cases (getDelayReason s)) as [H | [H | [H | H]]];
    rewrite H; cbn; auto.
Qed.

(** X23: the rules only produce alerts of priority high or medium, so
    for the batch of a cycle the summary has [low = 0] and
    [high + medium = total]; and every alert of the batch counts as
    unread. *)
Theorem batch_summary (random : nat -> string) (env : Env)
    (previous shipments : list Shipment.t) (n : nat) :
  let batch := fst (collectAlerts random env previous shipments n) in
  let summary := getAlertSummary batch in
  AlertSummary.low summary = 0%nat
  /\ (AlertSummary.high summary + AlertSummary.medium summary)%nat
     = AlertSummary.total summary
  /\ countWhere isUnread batch = List.length batch.
Proof.
  cbv zeta. unfold getAlertSummary.
  cbn [AlertSummary.low AlertSummary.high AlertSummary.medium AlertSummary.total].
  assert (Hprio : Forall (fun a => Alert.priority a = "high"
                                   \/ Alert.priority a = "medium")
                    (fst (collectAlerts random env previous shipments n))).
  { apply Forall_forall. intros a Ha. apply collectAlerts_In in Ha.
    destruct Ha as (s & _ & Ho). exact (origin_priority random env s _ a Ho). }
  destruct (priority_partition _ Hprio) as [Hlow Hsum].
  split; [exact Hlow | split; [exact Hsum |]].
  unfold countWhere. f_equal. apply forallb_filter_id. apply forallb_forall.
  intros a Ha. apply collectAlerts_In in Ha. destruct Ha as (s & _ & Ho).
  apply origin_stamp in Ho. destruct Ho as (ty & msg & p & x & ->). reflexivity.
Qed.

Lemma cleanup_survivors_age env saved shipments a :
  In a (cleanupOutdatedAlerts env saved shipments) ->
  In a saved
  /\ forall created, Alert.timestamp a = Some created ->
                     now env - created <= 7 * 86400000.
Proof.
  intros Hin. apply filter_In in Hin. destruct Hin as [Hin Hk].
  split; [exact Hin |].
  apply keepAlert_true in Hk. destruct Hk as (s & _ & _ & _ & Hage). exact Hage.
Qed.

(** * The two age rules *)

(** X24: [alertStorage.cleanup] keeps exactly the saved alerts created
    less than 7 days before the clock.  It agrees with the age rule of
    [cleanupOutdatedAlerts] except on two kinds of alert, which the
    latter keeps and it drops: those exactly 7 days old and those whose
    timestamp cannot be parsed. *)
Theorem storage_cleanup_versus_service_cleanup (env : Env) (saved : list Alert.t)
    (shipments : list Shipment.t) (a : Alert.t) :
  (In a (alertStorageCleanup env saved)
   <-> In a saved
       /\ exists created, Alert.timestamp a = Some created
                          /\ now env - created < 7 * 86400000)
  /\ (In a (cleanupOutdatedAlerts env saved shipments) ->
      ~ In a (alertStorageCleanup env saved) ->
      Alert.timestamp a = None
      \/ Alert.timestamp a = Some (now env - 7 * 86400000)).
Proof.
  assert (Hiff : In a (alertStorageCleanup env saved)
                 <-> In a saved
                     /\ exists created, Alert.timestamp a = Some created
                                        /\ now env - created < 7 * 86400000).
  { unfold alertStorageCleanup. cbv zeta. rewrite filter_In. split.
    - intros [Hin Hk]. split; [exact Hin |].
      destruct (Alert.timestamp a) as [created|]; [| discriminate].
      exists created. split; [reflexivity |]. apply Z.ltb_lt in Hk. lia.
    - intros [Hin (created & -> & Hage)]. split; [exact Hin |].
      apply Z.ltb_lt. lia. }
  split; [exact Hiff |].
  intros Hkept Hdropped. apply cleanup_survivors_age in Hkept.
  destruct Hkept as [Hin Hage].
  destruct (Alert.timestamp a) as [created|] eqn:Hts; [| left; reflexivity].
  right. f_equal. specialize (Hage created eq_refl).
  destruct (Z_lt_le_dec (now env - created) (7 * 86400000)) as [Hlt | Hge].
  - exfalso. apply Hdropped. apply Hiff. split; [exact Hin |].
    exists created. auto.
  - lia.
Qed.

Lemma storage_cleanup_versus_service_cleanup_witness :
  Alert.timestamp
    (stamp (mkEnv (Sample.clock - 7 * 86400000) false) ALERT_TYPES.DELIVERED
       "Books has been successfully delivered" Sample.deliveredParcel None "r0") = None
  \/ Alert.timestamp
       (stamp (mkEnv (Sample.clock - 7 * 86400000) false) ALERT_TYPES.DELIVERED
          "Books has been successfully delivered" Sample.deliveredParcel None "r0")
     = Some (now Sample.free - 7 * 86400000).
Proof.
  apply (storage_cleanup_versus_service_cleanup Sample.free
           [stamp (mkEnv (Sample.clock - 7 * 86400000) false) ALERT_TYPES.DELIVERED
              "Books has been successfully delivered" Sample.deliveredParcel None "r0"]
           [Sample.deliveredParcel]).
  - vm_compute. left. reflexivity.
  - vm_compute. intros [].
Defined.
